(** * CodePolyglot: the per-language static code analyzer

    A shallow embedding of [src/core/analyzer.py] (class [CodeAnalyzer] and
    the dataclass [AnalysisResult]) together with the properties of the
    analyzer that its specification states.

    Conventions of the embedding:
    - a Python [str] is a list of Unicode code points ([N]);
    - Python [int] counters are [nat], string indices are [Z] (so that the
      [-1] of [str.find] and negative slice bounds keep their meaning);
    - the float [comment_ratio] is kept as the exact rational quotient of the
      two counters, of which the Python float is the rounding;
    - [ast.parse] and the Unicode alphanumeric table behind [\w] belong to the
      Python runtime: they are Variables of the sections that use them;
    - a raised exception is the left injection of a sum type, [try/except]
      is [try_except]. *)

From Stdlib Require Import List Bool Arith NArith ZArith QArith Lia.
From Stdlib Require Import String Ascii Permutation DecimalString.
Import ListNotations.

Close Scope Q_scope.
Local Open Scope nat_scope.

(* ------------------------------------------------------------------ *)
(** ** Python strings *)

Module PyStr.

Definition char := N.
Definition str := list char.

(** A literal of the source, written in ASCII. *)
Definition lit (s : string) : str :=
  List.map N_of_ascii (list_ascii_of_string s).

Definition char_in (lo hi c : char) : bool :=
  (N.leb lo c && N.leb c hi)%bool.

(** [str.isspace] on one code point (CPython's [_PyUnicode_IsWhitespace]);
    the same class is [\s] in a [str] pattern of [re]. *)
Definition isspace (c : char) : bool :=
  (char_in 9%N 13%N c || char_in 28%N 32%N c
   || N.eqb c 133%N || N.eqb c 160%N || N.eqb c 5760%N
   || char_in 8192%N 8202%N c || N.eqb c 8232%N || N.eqb c 8233%N
   || N.eqb c 8239%N || N.eqb c 8287%N || N.eqb c 12288%N)%bool.

(** The line boundaries of [str.splitlines] (CPython's
    [_PyUnicode_IsLinebreak]): LF, VT, FF, CR, FS, GS, RS, NEL, LS, PS. *)
Definition islinebreak (c : char) : bool :=
  (char_in 10%N 13%N c || char_in 28%N 30%N c || N.eqb c 133%N
   || N.eqb c 8232%N || N.eqb c 8233%N)%bool.

Definition LF : char := 10%N.
Definition CR : char := 13%N.

(** [str.splitlines()]: [cur] is the line being read.  A CR immediately
    followed by LF is one boundary; the text after the last boundary is a
    line only when it is not empty. *)
Fixpoint splitlines_from (cur : str) (s : str) : list str :=
  match s with
  | [] => match cur with [] => [] | _ => [cur] end
  | c :: rest =>
      if islinebreak c then
        cur :: match rest with
               | d :: rest' =>
                   if (N.eqb c CR && N.eqb d LF)%bool
                   then splitlines_from [] rest'
                   else splitlines_from [] rest
               | [] => splitlines_from [] rest
               end
      else splitlines_from (cur ++ [c]) rest
  end.

Definition splitlines (s : str) : list str := splitlines_from [] s.

Fixpoint lstrip (s : str) : str :=
  match s with
  | c :: rest => if isspace c then lstrip rest else s
  | [] => []
  end.

Definition rstrip (s : str) : str := rev (lstrip (rev s)).

(** [str.strip()] *)
Definition strip (s : str) : str := rstrip (lstrip s).

(** [s.startswith(p)] *)
Fixpoint startswith (s p : str) : bool :=
  match p, s with
  | [], _ => true
  | a :: p', b :: s' => (N.eqb a b && startswith s' p')%bool
  | _ :: _, [] => false
  end.

(** [s.startswith((p1, ..., pn))] *)
Definition startswith_any (s : str) (ps : list str) : bool :=
  existsb (startswith s) ps.

(** [sub in s] *)
Fixpoint contains (sub s : str) : bool :=
  if startswith s sub then true
  else match s with
       | [] => false
       | _ :: s' => contains sub s'
       end.

Fixpoint find_from (i : Z) (sub s : str) : Z :=
  if startswith s sub then i
  else match s with
       | [] => (-1)%Z
       | _ :: s' => find_from (i + 1)%Z sub s'
       end.

(** [s.find(sub)]: the lowest index of [sub] in [s], [-1] when absent. *)
Definition find (s sub : str) : Z := find_from 0%Z sub s.

Definition len (s : str) : Z := Z.of_nat (List.length s).

(** A slice bound brought into [0 .. len s], as Python does. *)
Definition clamp (s : str) (i : Z) : nat :=
  Z.to_nat (if (i <? 0)%Z then Z.max (i + len s) 0 else Z.min i (len s)).

(** [s[lo:hi]] *)
Definition slice (s : str) (lo hi : Z) : str :=
  firstn (clamp s hi - clamp s lo) (skipn (clamp s lo) s).

(** [s[lo:]] *)
Definition slice_from (s : str) (lo : Z) : str := slice s lo (len s).

(** [s[:hi]] *)
Definition slice_to (s : str) (hi : Z) : str := slice s 0%Z hi.

(** [s.replace(old, new)] for a one-character [old]. *)
Definition replace (s : str) (old : char) (new : str) : str :=
  flat_map (fun c => if N.eqb c old then new else [c]) s.

(** [sep.join(parts)] *)
Fixpoint join (sep : str) (parts : list str) : str :=
  match parts with
  | [] => []
  | [p] => p
  | p :: ps => p ++ sep ++ join sep ps
  end.

(** [c * n] *)
Definition times (c : str) (n : nat) : str := List.concat (repeat c n).

(** Truthiness of a string: [if text:] *)
Definition truthy (s : str) : bool :=
  match s with [] => false | _ => true end.

Definition eqb (a b : str) : bool :=
  if list_eq_dec N.eq_dec a b then true else false.

End PyStr.

Import PyStr.

(* ------------------------------------------------------------------ *)
(** ** Exceptions *)

Inductive py_exception : Type :=
| SyntaxError
| ValueError
| RecursionError
| MemoryError.

(** A computation that returns a value or raises an [Exception]. *)
Definition exc (A : Type) : Type := (py_exception + A)%type.

Definition ret {A} (a : A) : exc A := inr a.
Definition raise {A} (e : py_exception) : exc A := inl e.

Definition bind {A B} (m : exc A) (k : A -> exc B) : exc B :=
  match m with
  | inl e => inl e
  | inr a => k a
  end.

(** [try: body  except Exception as e: handler] *)
Definition try_except {A} (body : exc A) (handler : py_exception -> exc A)
  : exc A :=
  match body with
  | inl e => handler e
  | inr a => inr a
  end.

Notation "x <- m ;; k" := (bind m (fun x => k))
  (at level 61, m at next level, right associativity).

(* ------------------------------------------------------------------ *)
(** ** The result record *)

(** An entry of [functions]: the dict
    [{'name', 'line', 'complexity', 'args'}]. *)
Record FunctionInfo : Type := mkFunctionInfo {
  fn_name : str;
  fn_line : nat;
  fn_complexity : nat;
  fn_args : nat
}.

(** An entry of [classes]: the dict [{'name', 'line', 'methods'}]. *)
Record ClassInfo : Type := mkClassInfo {
  cl_name : str;
  cl_line : nat;
  cl_methods : nat
}.

Record AnalysisResult : Type := mkAnalysisResult {
  lines_of_code : nat;
  comment_lines : nat;
  function_count : nat;
  class_count : nat;
  cyclomatic_complexity : nat;
  comment_ratio : Q;
  imports : list str;
  functions : list FunctionInfo;
  classes : list ClassInfo;
  comments : list str
}.

(** [AnalysisResult()]: the field defaults, the four [None] lists replaced
    by fresh empty lists in [__post_init__]. *)
Definition AnalysisResult_default : AnalysisResult :=
  mkAnalysisResult 0 0 0 0 0 0%Q [] [] [] [].

Definition set_lines_of_code (v : nat) (r : AnalysisResult) :=
  mkAnalysisResult v (comment_lines r) (function_count r) (class_count r)
    (cyclomatic_complexity r) (comment_ratio r) (imports r) (functions r)
    (classes r) (comments r).

Definition set_comment_lines (v : nat) (r : AnalysisResult) :=
  mkAnalysisResult (lines_of_code r) v (function_count r) (class_count r)
    (cyclomatic_complexity r) (comment_ratio r) (imports r) (functions r)
    (classes r) (comments r).

Definition set_function_count (v : nat) (r : AnalysisResult) :=
  mkAnalysisResult (lines_of_code r) (comment_lines r) v (class_count r)
    (cyclomatic_complexity r) (comment_ratio r) (imports r) (functions r)
    (classes r) (comments r).

Definition set_class_count (v : nat) (r : AnalysisResult) :=
  mkAnalysisResult (lines_of_code r) (comment_lines r) (function_count r) v
    (cyclomatic_complexity r) (comment_ratio r) (imports r) (functions r)
    (classes r) (comments r).

Definition set_cyclomatic_complexity (v : nat) (r : AnalysisResult) :=
  mkAnalysisResult (lines_of_code r) (comment_lines r) (function_count r)
    (class_count r) v (comment_ratio r) (imports r) (functions r)
    (classes r) (comments r).

Definition set_comment_ratio (v : Q) (r : AnalysisResult) :=
  mkAnalysisResult (lines_of_code r) (comment_lines r) (function_count r)
    (class_count r) (cyclomatic_complexity r) v (imports r) (functions r)
    (classes r) (comments r).

Definition set_imports (v : list str) (r : AnalysisResult) :=
  mkAnalysisResult (lines_of_code r) (comment_lines r) (function_count r)
    (class_count r) (cyclomatic_complexity r) (comment_ratio r) v
    (functions r) (classes r) (comments r).

Definition set_functions (v : list FunctionInfo) (r : AnalysisResult) :=
  mkAnalysisResult (lines_of_code r) (comment_lines r) (function_count r)
    (class_count r) (cyclomatic_complexity r) (comment_ratio r) (imports r)
    v (classes r) (comments r).

Definition set_classes (v : list ClassInfo) (r : AnalysisResult) :=
  mkAnalysisResult (lines_of_code r) (comment_lines r) (function_count r)
    (class_count r) (cyclomatic_complexity r) (comment_ratio r) (imports r)
    (functions r) v (comments r).

Definition set_comments (v : list str) (r : AnalysisResult) :=
  mkAnalysisResult (lines_of_code r) (comment_lines r) (function_count r)
    (class_count r) (cyclomatic_complexity r) (comment_ratio r) (imports r)
    (functions r) (classes r) v.

(** [a / b] on two counters (true division). *)
Definition truediv (a b : nat) : Q :=
  (inject_Z (Z.of_nat a) / inject_Z (Z.of_nat b))%Q.

(** [comment_lines / lines_of_code if lines_of_code > 0 else 0] *)
Definition ratio_of (comment_lines lines_of_code : nat) : Q :=
  if 0 <? lines_of_code then truediv comment_lines lines_of_code else 0%Q.

(* ------------------------------------------------------------------ *)
(** ** The generic analysis *)

Definition generic_markers : list str :=
  [lit "//"; lit "#"; lit "/*"; lit "*"].

Definition generic_is_comment (line : str) : bool :=
  startswith_any (strip line) generic_markers.

(** [sum(1 for line in lines if ...)] *)
Definition generic_comment_lines (lines : list str) : nat :=
  List.length (filter generic_is_comment lines).

Definition _analyze_generic (code : str) : exc AnalysisResult :=
  let result := AnalysisResult_default in
  let lines := splitlines code in
  let result := set_lines_of_code (List.length lines) result in
  let comment_lines := generic_comment_lines lines in
  let result := set_comment_lines comment_lines result in
  let result :=
    set_comment_ratio (ratio_of comment_lines (lines_of_code result)) result in
  ret result.

(* ------------------------------------------------------------------ *)
(** ** The syntax tree of [ast.parse] *)

(** The class of a node with the attributes the analyzer reads.  [args] of a
    function definition is [len(node.args.args)]; the [body] of a class is the
    segment of [body_len] children that starts at child [body_off] (after the
    bases and keywords, before the decorators); the names of an import are
    the [alias.name] of its aliases.  Every class the analyzer does not test
    for is [Other]. *)
Inductive node_class : Type :=
| Module
| FunctionDef (name : str) (lineno : nat) (args : nat)
| AsyncFunctionDef (name : str) (lineno : nat) (args : nat)
| ClassDef (name : str) (lineno : nat) (body_off body_len : nat)
| Import (names : list str)
| ImportFrom (module : option str) (names : list str)
| If
| While
| For
| AsyncFor
| AsyncWith
| Try
| ExceptHandler
| Assert
| BoolOp
| comprehension
| Other.

(** A node and its child nodes, in the order of [ast.iter_child_nodes]. *)
#[warnings="-register-all"]
Inductive node : Type :=
| Node (cls : node_class) (children : list node).

Definition class_of (n : node) : node_class :=
  match n with Node c _ => c end.

Definition iter_child_nodes (n : node) : list node :=
  match n with Node _ ch => ch end.

Fixpoint node_size (n : node) : nat :=
  match n with
  | Node _ ch => S (list_sum (List.map node_size ch))
  end.

Definition forest_size (l : list node) : nat :=
  list_sum (List.map node_size l).

(** The loop of [ast.walk]: pop the head of the queue, push its children at
    the tail, yield it.  [fuel] bounds the number of pops. *)
Fixpoint walk_queue (fuel : nat) (todo : list node) : list node :=
  match fuel, todo with
  | S fuel', n :: rest => n :: walk_queue fuel' (rest ++ iter_child_nodes n)
  | _, _ => []
  end.

(** [ast.walk(node)]: the node and all its descendants, breadth first.  The
    queue is popped once per node of the tree. *)
Definition walk (n : node) : list node :=
  walk_queue (node_size n) [n].

(** [isinstance(node, ast.FunctionDef)]; [ast.AsyncFunctionDef] is not a
    subclass of [ast.FunctionDef]. *)
Definition is_FunctionDef (n : node) : bool :=
  match class_of n with
  | FunctionDef _ _ _ => true
  | _ => false
  end.

(** The two tests of [_calculate_cyclomatic_complexity]:
    [isinstance(child, (ast.If, ..., ast.BoolOp))] and
    [isinstance(child, ast.comprehension)]. *)
Definition is_branching_stmt (n : node) : bool :=
  match class_of n with
  | If | While | For | AsyncFor | AsyncWith
  | Try | ExceptHandler | Assert | BoolOp => true
  | _ => false
  end.

Definition is_comprehension (n : node) : bool :=
  match class_of n with
  | comprehension => true
  | _ => false
  end.

Definition complexity_step (complexity : nat) (child : node) : nat :=
  if is_branching_stmt child then complexity + 1
  else if is_comprehension child then complexity + 1
  else complexity.

Definition _calculate_cyclomatic_complexity (n : node) : nat :=
  fold_left complexity_step (walk n) 1.

(** [node.module or str()]: the empty string for [None]. *)
Definition module_or_empty (m : option str) : str :=
  match m with
  | Some m' => m'
  | None => []
  end.

(** The body of the loop [for node in ast.walk(tree)]. *)
Definition visit (result : AnalysisResult) (n : node) : AnalysisResult :=
  match n with
  | Node (FunctionDef name lineno args) _ =>
      let result := set_function_count (function_count result + 1) result in
      let func_complexity := _calculate_cyclomatic_complexity n in
      let result :=
        set_cyclomatic_complexity
          (Nat.max (cyclomatic_complexity result) func_complexity) result in
      set_functions
        (functions result ++ [mkFunctionInfo name lineno func_complexity args])
        result
  | Node (ClassDef name lineno body_off body_len) ch =>
      let result := set_class_count (class_count result + 1) result in
      let body := firstn body_len (skipn body_off ch) in
      set_classes
        (classes result
           ++ [mkClassInfo name lineno
                 (List.length (filter is_FunctionDef body))])
        result
  | Node (Import names) _ =>
      set_imports (imports result ++ names) result
  | Node (ImportFrom module names) _ =>
      set_imports
        (imports result
           ++ List.map (fun alias => module_or_empty module ++ lit "." ++ alias)
                names)
        result
  | _ => result
  end.

(** The comment scan of the Python path: the state is
    [(comment_lines, comments)]. *)
Definition python_comment_step (st : nat * list str) (line : str)
  : nat * list str :=
  let '(comment_lines, comments) := st in
  let line_stripped := strip line in
  if (startswith line_stripped (lit "#")
      && negb (startswith line_stripped (times (lit "#") 70)))%bool
  then
    let comment_lines := comment_lines + 1 in
    let comment_text := strip (slice_from line_stripped 1) in
    if truthy comment_text
    then (comment_lines, comments ++ [comment_text])
    else (comment_lines, comments)
  else st.

(** The [try] body of [_analyze_python] after a successful parse. *)
Definition python_tree_analysis (code : str) (tree : node) : AnalysisResult :=
  let result := AnalysisResult_default in
  let result := set_lines_of_code (List.length (splitlines code)) result in
  let result := fold_left visit (walk tree) result in
  let lines := splitlines code in
  let '(comment_lines, comments) :=
    fold_left python_comment_step lines (0, []) in
  let result := set_comment_lines comment_lines result in
  let result :=
    set_comment_ratio (ratio_of comment_lines (lines_of_code result)) result in
  set_comments comments result.

(* ------------------------------------------------------------------ *)
(** ** The regular expressions of the lexical paths *)

(** The fragment of [re] the four patterns of the source use: character
    classes, greedy repetition of a class, concatenation and ordered
    alternation.  Groups capture but do not change what matches. *)
Inductive regex : Type :=
| Eps
| Chr (p : char -> bool)
| Star (p : char -> bool)
| Seq (r1 r2 : regex)
| Alt (r1 r2 : regex).

(** Greedy [X*] with backtracking: the longest run first, then shorter. *)
Fixpoint star_match (p : char -> bool) (s : str) (k : str -> option str)
  : option str :=
  match s with
  | c :: s' =>
      if p c then
        match star_match p s' k with
        | Some r => Some r
        | None => k s
        end
      else k s
  | [] => k s
  end.

(** The backtracking matcher of [re], anchored at the head of [s]: [k] is
    the rest of the pattern, the result is the text after the match. *)
Fixpoint rmatch (r : regex) (s : str) (k : str -> option str) : option str :=
  match r with
  | Eps => k s
  | Chr p =>
      match s with
      | c :: s' => if p c then k s' else None
      | [] => None
      end
  | Star p => star_match p s k
  | Seq r1 r2 => rmatch r1 s (fun s' => rmatch r2 s' k)
  | Alt r1 r2 =>
      match rmatch r1 s k with
      | Some x => Some x
      | None => rmatch r2 s k
      end
  end.

(** The length of the match of [r] at the head of [s], if there is one. *)
Definition match_len (r : regex) (s : str) : option nat :=
  match rmatch r s Some with
  | Some rest => Some (List.length s - List.length rest)
  | None => None
  end.

(** [len(re.findall(r, s))]: the scan tries each position from the left and
    resumes at the end of a match; [skip] is the number of characters still
    inside the last match.  No pattern of the source matches the empty
    string ([patterns_not_nullable] below), so a match always moves on. *)
Fixpoint findall_count (r : regex) (skip : nat) (s : str) : nat :=
  match s with
  | [] =>
      match skip, match_len r [] with
      | 0, Some _ => 1
      | _, _ => 0
      end
  | _ :: rest =>
      match skip with
      | S skip' => findall_count r skip' rest
      | 0 =>
          match match_len r s with
          | Some n => S (findall_count r (pred n) rest)
          | None => findall_count r 0 rest
          end
      end
  end.

Definition Lit (s : string) : regex :=
  fold_right (fun c r => Seq (Chr (N.eqb c)) r) Eps (lit s).

Definition Plus (p : char -> bool) : regex := Seq (Chr p) (Star p).

(** [(r)?] *)
Definition Opt (r : regex) : regex := Alt r Eps.

Definition cat (rs : list regex) : regex := fold_right Seq Eps rs.

(** [\s] *)
Definition space : char -> bool := isspace.

(** [[^)]] *)
Definition not_rparen (c : char) : bool := negb (N.eqb c 41%N).

(** Whether a pattern can match the empty string. *)
Fixpoint nullable (r : regex) : bool :=
  match r with
  | Eps => true
  | Chr _ => false
  | Star _ => true
  | Seq r1 r2 => (nullable r1 && nullable r2)%bool
  | Alt r1 r2 => (nullable r1 || nullable r2)%bool
  end.

(** What the analyzer takes from the Python runtime: the parser and the
    Unicode table of alphanumeric code points ([str.isalnum] on one
    character), which decides [\w]. *)
Class PythonRuntime : Type := {
  ast_parse : str -> exc node;
  isalnum : char -> bool
}.

Section Analyzer.

Context {rt : PythonRuntime}.

(** [\w] *)
Definition word (c : char) : bool := (isalnum c || N.eqb c 95%N)%bool.

(** [(public|private|protected)\s+\w+\s+\w+\s*\([^)]*\)\s*\{] *)
Definition java_function_pattern : regex :=
  cat [ Alt (Lit "public") (Alt (Lit "private") (Lit "protected"));
        Plus space; Plus word; Plus space; Plus word; Star space;
        Lit "("; Star not_rparen; Lit ")"; Star space; Lit "{" ].

(** [(public|private|protected)?\s*(class|interface|enum)\s+\w+] *)
Definition java_class_pattern : regex :=
  cat [ Opt (Alt (Lit "public") (Alt (Lit "private") (Lit "protected")));
        Star space;
        Alt (Lit "class") (Alt (Lit "interface") (Lit "enum"));
        Plus space; Plus word ].

(** [function\s+\w+\s*\([^)]*\)\s*\{] *)
Definition js_function_decl : regex :=
  cat [ Lit "function"; Plus space; Plus word; Star space;
        Lit "("; Star not_rparen; Lit ")"; Star space; Lit "{" ].

(** [(function\s+\w+|const\s+\w+\s*=\s*\([^)]*\)\s*=>|\w+\s*\([^)]*\)\s*\{)] *)
Definition js_function_pattern : regex :=
  Alt (cat [ Lit "function"; Plus space; Plus word ])
   (Alt (cat [ Lit "const"; Plus space; Plus word; Star space; Lit "=";
               Star space; Lit "("; Star not_rparen; Lit ")"; Star space;
               Lit "=>" ])
        (cat [ Plus word; Star space; Lit "("; Star not_rparen; Lit ")";
               Star space; Lit "{" ])).

(** [(class\s+\w+|function\s+\w+\s*\([^)]*\)\s*\{)] *)
Definition js_class_pattern : regex :=
  Alt (cat [ Lit "class"; Plus space; Plus word ]) js_function_decl.

(** [len(re.findall(pattern, code))] *)
Definition findall_len (pattern : regex) (code : str) : nat :=
  findall_count pattern 0 code.

(* ------------------------------------------------------------------ *)
(** ** The lexical scanners *)

(** The variables of the loop of [_analyze_java]. *)
Record java_state : Type := mkJavaState {
  j_in_block_comment : bool;
  j_block_comment_content : list str;
  j_comment_lines : nat;
  j_comments : list str
}.

Definition java_init : java_state := mkJavaState false [] 0 [].

(** [if comment_text: xs.append(comment_text)] *)
Definition append_if_text (xs : list str) (comment_text : str) : list str :=
  if truthy comment_text then xs ++ [comment_text] else xs.

(** The body of [for line in lines] in [_analyze_java]. *)
Definition java_step (st : java_state) (line : str) : java_state :=
  let stripped := strip line in
  if j_in_block_comment st then
    if contains (lit "*/") line then
      let end_idx := find line (lit "*/") in
      let comment_text := strip (slice_to line end_idx) in
      let content := append_if_text (j_block_comment_content st) comment_text in
      match content with
      | _ :: _ =>
          mkJavaState false [] (j_comment_lines st + 1)
            (j_comments st ++ [join (lit " ") content])
      | [] =>
          mkJavaState false content (j_comment_lines st + 1) (j_comments st)
      end
    else
      let comment_text := strip (replace line 42%N []) in
      mkJavaState true
        (append_if_text (j_block_comment_content st) comment_text)
        (j_comment_lines st + 1) (j_comments st)
  else if startswith stripped (lit "//") then
    let comment_text := strip (slice_from stripped 2) in
    mkJavaState false (j_block_comment_content st) (j_comment_lines st + 1)
      (append_if_text (j_comments st) comment_text)
  else if startswith stripped (lit "/*") then
    let start_idx := (find stripped (lit "/*") + 2)%Z in
    if contains (lit "*/") stripped then
      let end_idx := find stripped (lit "*/") in
      let comment_text := strip (slice stripped start_idx end_idx) in
      mkJavaState false (j_block_comment_content st) (j_comment_lines st + 1)
        (append_if_text (j_comments st) comment_text)
    else
      let comment_text := strip (slice_from stripped start_idx) in
      mkJavaState true
        (append_if_text (j_block_comment_content st) comment_text)
        (j_comment_lines st + 1) (j_comments st)
  else st.

Definition java_scan (st : java_state) (lines : list str) : java_state :=
  fold_left java_step lines st.

(** The [try] body of [_analyze_java]; nothing in it raises. *)
Definition java_analysis (code : str) : AnalysisResult :=
  let result := AnalysisResult_default in
  let lines := splitlines code in
  let result := set_lines_of_code (List.length lines) result in
  let st := java_scan java_init lines in
  let result :=
    set_function_count (findall_len java_function_pattern code) result in
  let result := set_class_count (findall_len java_class_pattern code) result in
  let result := set_comment_lines (j_comment_lines st) result in
  let result :=
    set_comment_ratio
      (ratio_of (j_comment_lines st) (lines_of_code result)) result in
  set_comments (j_comments st) result.

(** The variables of the loop of [_analyze_javascript]. *)
Record js_state : Type := mkJsState {
  s_in_block_comment : bool;
  s_comment_lines : nat;
  s_comments : list str
}.

Definition js_init : js_state := mkJsState false 0 [].

(** The body of [for line in lines] in [_analyze_javascript]. *)
Definition js_step (st : js_state) (line : str) : js_state :=
  let stripped := strip line in
  if s_in_block_comment st then
    if contains (lit "*/") line then
      let end_idx := find line (lit "*/") in
      let comment_text := strip (slice_to line end_idx) in
      mkJsState false (s_comment_lines st + 1)
        (append_if_text (s_comments st) comment_text)
    else
      mkJsState true (s_comment_lines st + 1) (s_comments st)
  else if startswith stripped (lit "//") then
    let comment_text := strip (slice_from stripped 2) in
    mkJsState false (s_comment_lines st + 1)
      (append_if_text (s_comments st) comment_text)
  else if startswith stripped (lit "/*") then
    let start_idx := (find stripped (lit "/*") + 2)%Z in
    if contains (lit "*/") stripped then
      let end_idx := find stripped (lit "*/") in
      let comment_text := strip (slice stripped start_idx end_idx) in
      mkJsState false (s_comment_lines st + 1)
        (append_if_text (s_comments st) comment_text)
    else
      let comment_text := strip (slice_from stripped start_idx) in
      mkJsState true (s_comment_lines st + 1)
        (append_if_text (s_comments st) comment_text)
  else st.

Definition js_scan (st : js_state) (lines : list str) : js_state :=
  fold_left js_step lines st.

Definition js_analysis (code : str) : AnalysisResult :=
  let result := AnalysisResult_default in
  let lines := splitlines code in
  let result := set_lines_of_code (List.length lines) result in
  let st := js_scan js_init lines in
  let result :=
    set_function_count (findall_len js_function_pattern code) result in
  let result := set_class_count (findall_len js_class_pattern code) result in
  let result := set_comment_lines (s_comment_lines st) result in
  let result :=
    set_comment_ratio
      (ratio_of (s_comment_lines st) (lines_of_code result)) result in
  set_comments (s_comments st) result.

(* ------------------------------------------------------------------ *)
(** ** The class [CodeAnalyzer] *)

Definition _analyze_python (code : str) : exc AnalysisResult :=
  try_except
    (tree <- ast_parse code ;;
     ret (python_tree_analysis code tree))
    (fun _ => _analyze_generic code).

Definition _analyze_java (code : str) : exc AnalysisResult :=
  try_except
    (ret (java_analysis code))
    (fun _ => _analyze_generic code).

Definition _analyze_javascript (code : str) : exc AnalysisResult :=
  ret (js_analysis code).

Definition analyze_code (code : str) (language : str) : exc AnalysisResult :=
  if PyStr.eqb language (lit "python") then _analyze_python code
  else if PyStr.eqb language (lit "java") then _analyze_java code
  else if PyStr.eqb language (lit "javascript") then _analyze_javascript code
  else _analyze_generic code.

End Analyzer.

(* ------------------------------------------------------------------ *)
(** ** Notions the properties are stated with *)

(** The proper descendants of a node, by structural recursion (depth
    first); [ast.walk] yields the same nodes breadth first. *)
Fixpoint descendants (n : node) : list node :=
  match n with
  | Node _ ch => flat_map (fun c => c :: descendants c) ch
  end.

(** The two tests of [complexity_step] taken together. *)
Definition is_branching (n : node) : bool :=
  (is_branching_stmt n || is_comprehension n)%bool.

Definition count_nodes (p : node -> bool) (l : list node) : nat :=
  List.length (filter p l).

Definition is_If (n : node) : bool :=
  match class_of n with If => true | _ => false end.

Definition is_For (n : node) : bool :=
  match class_of n with For => true | _ => false end.

(** The entry of [functions] for a function definition whose complexity is
    one plus the number of its branching descendants. *)
Definition function_entry (n : node) : FunctionInfo :=
  match class_of n with
  | FunctionDef name lineno args =>
      mkFunctionInfo name lineno
        (1 + count_nodes is_branching (descendants n)) args
  | _ => mkFunctionInfo [] 0 0 0
  end.

(** The kinds of node that the specification of the complexity lists:
    conditional, while-loop, for-loop, async-for, async-with, try-block,
    exception-handler, assert, boolean-operator chain, comprehension or
    generator clause. *)
Inductive listed_kind : Type :=
| Conditional
| WhileLoop
| ForLoop
| AsyncForLoop
| AsyncWithBlock
| TryBlock
| ExceptionHandler
| AssertStatement
| BooleanOperatorChain
| ComprehensionClause.

(** The listed kind a node is of, if it is of one: the class of the syntax
    tree that stands for each kind. *)
Definition listed_kind_of (n : node) : option listed_kind :=
  match class_of n with
  | If => Some Conditional
  | While => Some WhileLoop
  | For => Some ForLoop
  | AsyncFor => Some AsyncForLoop
  | AsyncWith => Some AsyncWithBlock
  | Try => Some TryBlock
  | ExceptHandler => Some ExceptionHandler
  | Assert => Some AssertStatement
  | BoolOp => Some BooleanOperatorChain
  | comprehension => Some ComprehensionClause
  | Module
  | FunctionDef _ _ _
  | AsyncFunctionDef _ _ _
  | ClassDef _ _ _ _
  | Import _
  | ImportFrom _ _
  | Other => None
  end.

Definition is_listed_kind (n : node) : bool :=
  match listed_kind_of n with
  | Some _ => true
  | None => false
  end.

(** The entry of [functions] the specification asks for: the complexity is
    one plus the number of descendants of a listed kind. *)
Definition listed_function_entry (n : node) : FunctionInfo :=
  match class_of n with
  | FunctionDef name lineno args =>
      mkFunctionInfo name lineno
        (1 + count_nodes is_listed_kind (descendants n)) args
  | _ => mkFunctionInfo [] 0 0 0
  end.

(** The comments the Python path extracts from a list of lines. *)
Definition python_comments (lines : list str) : list str :=
  snd (fold_left python_comment_step lines (0, [])).

(** The separator line: seventy [#]. *)
Definition separator : str := times (lit "#") 70.

(** The lines of a text as the specification words them: delimited by the
    newline character only, the empty text after a final newline not being
    a line.  To be compared with [splitlines]. *)
Fixpoint newline_delimited_from (cur : str) (s : str) : list str :=
  match s with
  | [] => match cur with [] => [] | _ => [cur] end
  | c :: rest =>
      if N.eqb c LF then cur :: newline_delimited_from [] rest
      else newline_delimited_from (cur ++ [c]) rest
  end.

Definition newline_delimited_lines (s : str) : list str :=
  newline_delimited_from [] s.

(** A text whose only line boundaries are newline characters. *)
Definition newline_only (s : str) : bool :=
  forallb (fun c => implb (islinebreak c) (N.eqb c LF)) s.

(** The text of a block-comment line in [_analyze_java]: of the opening
    line, of a line inside, of the closing line. *)
Definition opener_text (line : str) : str :=
  strip (slice_from (strip line) (find (strip line) (lit "/*") + 2)%Z).

Definition inner_text (line : str) : str :=
  strip (replace line 42%N []).

Definition closer_text (line : str) : str :=
  strip (slice_to line (find line (lit "*/"))).

Definition block_texts (opener : str) (inner : list str) (closer : str)
  : list str :=
  filter truthy
    (opener_text opener :: List.map inner_text inner ++ [closer_text closer]).

(** A line that opens a block comment which does not end on it. *)
Definition opens_block (line : str) : bool :=
  (startswith (strip line) (lit "/*")
   && negb (contains (lit "*/") (strip line)))%bool.

(** The entry a block comment leaves in [comments]: its texts joined by
    single spaces, and nothing when no line has text. *)
Definition block_entry (opener : str) (inner : list str) (closer : str)
  : list str :=
  match block_texts opener inner closer with
  | [] => []
  | texts => [join (lit " ") texts]
  end.

(** The number of comment lines the Python path counts in a list of
    lines. *)
Definition python_comment_count (lines : list str) : nat :=
  fst (fold_left python_comment_step lines (0, [])).

(** A scanner state with [n] more comment lines and the comments [cs] in
    front. *)
Definition j_shift (n : nat) (cs : list str) (st : java_state) : java_state :=
  mkJavaState (j_in_block_comment st) (j_block_comment_content st)
    (n + j_comment_lines st) (cs ++ j_comments st).

Definition s_shift (n : nat) (cs : list str) (st : js_state) : js_state :=
  mkJsState (s_in_block_comment st) (n + s_comment_lines st)
    (cs ++ s_comments st).

(** The words a pattern matches, independently of the matcher. *)
Inductive matches : regex -> str -> Prop :=
| m_eps : matches Eps []
| m_chr p c : p c = true -> matches (Chr p) [c]
| m_star_nil p : matches (Star p) []
| m_star_cons p c w :
    p c = true -> matches (Star p) w -> matches (Star p) (c :: w)
| m_seq r1 r2 w1 w2 :
    matches r1 w1 -> matches r2 w2 -> matches (Seq r1 r2) (w1 ++ w2)
| m_alt_l r1 r2 w : matches r1 w -> matches (Alt r1 r2) w
| m_alt_r r1 r2 w : matches r2 w -> matches (Alt r1 r2) w.

(** The record the generic analysis returns. *)
Definition generic_analysis (code : str) : AnalysisResult :=
  mkAnalysisResult (List.length (splitlines code))
    (generic_comment_lines (splitlines code)) 0 0 0
    (ratio_of (generic_comment_lines (splitlines code))
       (List.length (splitlines code)))
    [] [] [] [].

(** The record after the tree loop of the Python path. *)
Definition visited (code : str) (tree : node) : AnalysisResult :=
  fold_left visit (walk tree)
    (set_lines_of_code (List.length (splitlines code)) AnalysisResult_default).

Section Produced.

Context {rt : PythonRuntime}.

(** Which body produced the result of a call. *)
Inductive produced_by (code : str) : AnalysisResult -> Prop :=
| by_tree tree :
    ast_parse code = inr tree ->
    produced_by code (python_tree_analysis code tree)
| by_java : produced_by code (java_analysis code)
| by_javascript : produced_by code (js_analysis code)
| by_generic : produced_by code (generic_analysis code).

End Produced.

(* ------------------------------------------------------------------ *)
(** ** Sample inputs *)

Definition nl : string := String (ascii_of_nat 10) EmptyString.

(** The ASCII letters and digits. *)
Definition ascii_alnum (c : char) : bool :=
  (char_in 48%N 57%N c || char_in 65%N 90%N c || char_in 97%N 122%N c)%bool.

(** [async def f(x):] / [if x:] / [pass] *)
Definition async_source : str :=
  lit ("async def f(x):" ++ nl ++ "    if x:" ++ nl ++ "        pass" ++ nl).

(** Its tree: the [arguments] with one [arg], then the [If] over a [Name]
    (with its [Load] context) and a [Pass]. *)
Definition async_tree : node :=
  Node Module
    [Node (AsyncFunctionDef (lit "f") 1 1)
       [Node Other [Node Other []];
        Node If [Node Other [Node Other []]; Node Other []]]].

(** [def f(xs):] / [for x in xs:] / [if x:] / [pass] *)
Definition loop_source : str :=
  lit ("def f(xs):" ++ nl ++ "    for x in xs:" ++ nl
       ++ "        if x:" ++ nl ++ "            pass" ++ nl).

Definition loop_function : node :=
  Node (FunctionDef (lit "f") 1 1)
    [Node Other [Node Other []];
     Node For
       [Node Other [Node Other []];
        Node Other [Node Other []];
        Node If [Node Other [Node Other []]; Node Other []]]].

Definition loop_tree : node := Node Module [loop_function].

(** A comment, the separator line, the statement [x = 1]. *)
Definition separator_source : str :=
  lit ("# title" ++ nl) ++ separator ++ lit (nl ++ "x = 1" ++ nl).

(** The tree of [x = 1]: an [Assign] of a [Constant] to a [Name] (with its
    [Store] context). *)
Definition assignment_tree : node :=
  Node Module [Node Other [Node Other [Node Other []]; Node Other []]].

(** A runtime to run the analyzer on the samples: its parser knows the trees
    of the empty text and of the three sources above and rejects any other
    text; its alphanumeric table is the ASCII one. *)
Definition sample_parse (code : str) : exc node :=
  if PyStr.eqb code [] then ret (Node Module [])
  else if PyStr.eqb code async_source then ret async_tree
  else if PyStr.eqb code loop_source then ret loop_tree
  else if PyStr.eqb code separator_source then ret assignment_tree
  else raise SyntaxError.

Definition sample_runtime : PythonRuntime :=
  {| ast_parse := sample_parse; isalnum := ascii_alnum |}.

(** A block comment over five lines, then a method. *)
Definition block_source : str :=
  lit ("/* a" ++ nl ++ " * b" ++ nl ++ "c" ++ nl ++ " d" ++ nl ++ " e */" ++ nl
       ++ "public int foo(int x) {" ++ nl ++ "}" ++ nl).

(** A block comment without text. *)
Definition empty_block_source : str := lit ("/*" ++ nl ++ "*/").


(** A form feed between two letters. *)
Definition form_feed_source : str := [97%N; 12%N; 98%N].


(* ------------------------------------------------------------------ *)
(** ** The callers of the analyzer in [main.py] *)

(** [self.supported_languages], in insertion order. *)
Definition supported_languages : list (str * str) :=
  [ (lit "python", lit ".py");
    (lit "java", lit ".java");
    (lit "javascript", lit ".js");
    (lit "cpp", lit ".cpp");
    (lit "go", lit ".go") ].

(** The loop of [_get_language_by_extension] over the items of the
    dictionary; [None] when it runs out. *)
Fixpoint language_by_extension (items : list (str * str)) (extension : str)
  : option str :=
  match items with
  | [] => None
  | (lang, ext) :: rest =>
      if PyStr.eqb extension ext then Some lang
      else language_by_extension rest extension
  end.

Definition _get_language_by_extension (extension : str) : option str :=
  language_by_extension supported_languages extension.

(** The loop of [_detect_language]; ['unknown'] when it runs out. *)
Fixpoint detect_among (items : list (str * str)) (ext : str) : str :=
  match items with
  | [] => lit "unknown"
  | (lang, lang_ext) :: rest =>
      if PyStr.eqb ext lang_ext then lang else detect_among rest ext
  end.

Section Detect.

(** [Path(file_path).suffix.lower()], computed by [pathlib]. *)
Variable path_suffix_lower : str -> str.

Definition _detect_language (file_path : str) : str :=
  let ext := path_suffix_lower file_path in
  detect_among supported_languages ext.

End Detect.

(** The configuration dictionary; the threshold is taken to be an integer,
    as the default is. *)
Record Config : Type := mkConfig {
  max_file_size : Z;
  complexity_threshold : Z;
  enable_nlp : bool;
  output_format : str;
  language : str
}.

Definition default_config : Config :=
  mkConfig (1024 * 1024) 10 true (lit "html") (lit "en").

(** An entry of [issues]: the dict
    [{'type', 'severity', 'message', 'suggestion'}]. *)
Record Issue : Type := mkIssue {
  i_type : str;
  i_severity : str;
  i_message : str;
  i_suggestion : str
}.

(** An integer inside an f-string: its decimal digits. *)
Definition str_of_nat (n : nat) : str :=
  lit (NilZero.string_of_uint (Nat.to_uint n)).

(** The texts of the issues, as code points. *)
Definition complexity_message_head : str :=
  [22280; 22797; 26434; 24230; 36807; 39640; 58; 32]%N.

Definition complexity_suggestion : str :=
  [32771; 34385; 37325; 26500; 20989; 25968; 65292; 25286; 20998; 20026;
   26356; 23567; 30340; 20989; 25968]%N.

Definition length_message_head : str :=
  [25991; 20214; 36807; 38271; 58; 32]%N.

Definition length_message_tail : str := [32; 34892]%N.

Definition length_suggestion : str :=
  [32771; 34385; 23558; 25991; 20214; 25286; 20998; 20026; 22810; 20010;
   27169; 22359]%N.

(** [_identify_issues] on the dictionary of an [AnalysisResult], where both
    keys it reads are present. *)
Definition _identify_issues (config : Config) (analysis : AnalysisResult)
  : list Issue :=
  let issues := [] in
  let issues :=
    if (complexity_threshold config
        <? Z.of_nat (cyclomatic_complexity analysis))%Z
    then issues
         ++ [mkIssue (lit "complexity") (lit "high")
               (complexity_message_head
                  ++ str_of_nat (cyclomatic_complexity analysis))
               complexity_suggestion]
    else issues in
  let issues :=
    if 200 <? lines_of_code analysis
    then issues
         ++ [mkIssue (lit "length") (lit "medium")
               (length_message_head ++ str_of_nat (lines_of_code analysis)
                  ++ length_message_tail)
               length_suggestion]
    else issues in
  issues.

(** Whether a list of issues holds one of the given type. *)
Definition has_issue (type : str) (issues : list Issue) : bool :=
  existsb (fun i => PyStr.eqb (i_type i) type) issues.

(* ------------------------------------------------------------------ *)
(** ** More notions the properties are stated with *)

Definition is_ClassDef (n : node) : bool :=
  match class_of n with
  | ClassDef _ _ _ _ => true
  | _ => false
  end.

(** The Java and the JavaScript scan are in a block comment together and
    have counted the same lines. *)
Definition in_step (j : java_state) (s : js_state) : Prop :=
  j_in_block_comment j = s_in_block_comment s
  /\ j_comment_lines j = s_comment_lines s.

(** A text that does not begin with white space. *)
Definition head_ok (s : str) : Prop :=
  match s with
  | c :: _ => isspace c = false
  | [] => True
  end.

(** A comment text as the scans store it: not empty, and unchanged by
    [strip]. *)
Definition trimmed (s : str) : Prop := s <> [] /\ strip s = s.

(** One of three words. *)
Definition one_of (a b c : string) (w : str) : Prop :=
  w = lit a \/ w = lit b \/ w = lit c.

(** A text holds a match of a pattern. *)
Definition holds_match (r : regex) (code : str) : Prop :=
  exists pre w post, code = pre ++ w ++ post /\ matches r w.

(** A path whose suffix is everything from its last dot on, for the
    samples. *)
Fixpoint sample_suffix (path : str) : str :=
  match path with
  | [] => []
  | c :: rest =>
      if contains (lit ".") rest then sample_suffix rest
      else if N.eqb c 46%N then path else []
  end.


(** A function with one node of each listed kind among its descendants,
    next to nodes that are of none: an expression, a nested async function
    and a nested class. *)
Definition every_kind_function : node :=
  Node (FunctionDef (lit "h") 1 2)
    [Node Other [];
     Node If [Node BoolOp [Node Other []; Node Other []]];
     Node While [Node Other []];
     Node For [Node Other [Node comprehension [Node Other []]]];
     Node (AsyncFunctionDef (lit "a") 9 0)
       [Node AsyncFor [Node Other []]; Node AsyncWith [Node Other []]];
     Node Try [Node Other []; Node ExceptHandler [Node Other []]];
     Node Assert [Node Other []];
     Node (ClassDef (lit "K") 20 0 0) []].


(** A function with an [if], nested in a function with a [while]. *)
Definition inner_function : node :=
  Node (FunctionDef (lit "g") 3 0)
    [Node Other []; Node If [Node Other [Node Other []]; Node Other []]].

Definition outer_function : node :=
  Node (FunctionDef (lit "f") 1 0)
    [Node Other [];
     Node While [Node Other [Node Other []]; inner_function]].

(* ------------------------------------------------------------------ *)
(** ** The four paths and what each one writes *)

Section Paths.

Context {rt : PythonRuntime}.

Lemma eqb_eq (a b : str) : PyStr.eqb a b = true <-> a = b.
Proof.
  unfold PyStr.eqb. destruct (list_eq_dec N.eq_dec a b); split;
    intros; try congruence; auto.
Qed.

Lemma analyze_generic_returns (code : str) :
  _analyze_generic code = inr (generic_analysis code).
Proof. reflexivity. Qed.

Lemma analyze_python_parsed (code : str) (tree : node) :
  ast_parse code = inr tree ->
  _analyze_python code = inr (python_tree_analysis code tree).
Proof. intros H. unfold _analyze_python. rewrite H. reflexivity. Qed.

Lemma analyze_python_failed (code : str) (e : py_exception) :
  ast_parse code = inl e ->
  _analyze_python code = _analyze_generic code.
Proof. intros H. unfold _analyze_python. rewrite H. reflexivity. Qed.

Lemma analyze_code_returns (code language : str) :
  exists r, analyze_code code language = inr r /\ produced_by code r.
Proof.
  unfold analyze_code.
  destruct (PyStr.eqb language (lit "python")).
  - destruct (ast_parse code) as [e | tree] eqn:P.
    + exists (generic_analysis code). split; [|constructor].
      now rewrite (analyze_python_failed _ _ P).
    + exists (python_tree_analysis code tree). split; [|now constructor].
      now apply analyze_python_parsed.
  - destruct (PyStr.eqb language (lit "java")).
    + exists (java_analysis code). split; [reflexivity | constructor].
    + destruct (PyStr.eqb language (lit "javascript")).
      * exists (js_analysis code). split; [reflexivity | constructor].
      * exists (generic_analysis code). split; [reflexivity | constructor].
Qed.

(** The tree loop writes the four structural fields only. *)
Lemma visit_frame (r : AnalysisResult) (n : node) :
  lines_of_code (visit r n) = lines_of_code r
  /\ comment_lines (visit r n) = comment_lines r
  /\ comment_ratio (visit r n) = comment_ratio r
  /\ comments (visit r n) = comments r.
Proof. destruct n as [[] ch]; simpl; auto. Qed.

Lemma visit_all_frame (l : list node) (r : AnalysisResult) :
  lines_of_code (fold_left visit l r) = lines_of_code r.
Proof.
  revert r. induction l as [|n l IH]; intros r; simpl; [reflexivity|].
  rewrite IH. apply visit_frame.
Qed.

Lemma visited_lines (code : str) (tree : node) :
  lines_of_code (visited code tree) = List.length (splitlines code).
Proof. unfold visited. now rewrite visit_all_frame. Qed.

Lemma python_tree_analysis_fields (code : str) (tree : node) :
  let scan := fold_left python_comment_step (splitlines code) (0, []) in
  python_tree_analysis code tree =
  mkAnalysisResult (List.length (splitlines code)) (fst scan)
    (function_count (visited code tree)) (class_count (visited code tree))
    (cyclomatic_complexity (visited code tree))
    (ratio_of (fst scan) (List.length (splitlines code)))
    (imports (visited code tree)) (functions (visited code tree))
    (classes (visited code tree)) (snd scan).
Proof.
  intros scan. unfold python_tree_analysis. fold (visited code tree).
  fold scan. destruct scan as [n cs]. simpl.
  unfold set_comments, set_comment_ratio, set_comment_lines. simpl.
  rewrite !visited_lines. reflexivity.
Qed.

Lemma ratio_of_pos (a b : nat) : 0 < b -> ratio_of a b = truediv a b.
Proof.
  intros H. unfold ratio_of.
  destruct (Nat.ltb_spec 0 b); [reflexivity | lia].
Qed.

Lemma ratio_of_zero (a : nat) : ratio_of a 0 = 0%Q.
Proof. reflexivity. Qed.

End Paths.

(* ------------------------------------------------------------------ *)
(** ** The string model on small inputs *)

Section Checks.

(** ["a\n\nb\n".splitlines() == ['a', '', 'b']] *)
Example splitlines_trailing_newline :
  splitlines (lit ("a" ++ nl ++ nl ++ "b" ++ nl)) = [lit "a"; []; lit "b"].
Proof. reflexivity. Qed.

(** ["a\r\nb\r\r\n".splitlines() == ['a', 'b', '']] *)
Example splitlines_carriage_returns :
  splitlines [97; 13; 10; 98; 13; 13; 10]%N = [lit "a"; lit "b"; []].
Proof. reflexivity. Qed.

(** The empty text has no line; a lone newline ends one empty line. *)
Example splitlines_empty :
  splitlines [] = [] /\ splitlines (lit nl) = [[]].
Proof. split; reflexivity. Qed.

(** ["  a b \t".strip() == 'a b'] *)
Example strip_both_ends :
  strip ([32; 32; 97; 32; 98; 32; 9]%N) = lit "a b".
Proof. reflexivity. Qed.

(** ["/*/".find('*/') == 1], ["/*/"[2:1] == ''], ["abc".find('x') == -1] *)
Example find_and_slice :
  find (lit "/*/") (lit "*/") = 1%Z
  /\ slice (lit "/*/") 2 1 = []
  /\ find (lit "abc") (lit "x") = (-1)%Z
  /\ slice (lit "abcdef") 2 (-1) = lit "cde".
Proof. repeat split. Qed.

(** [' '.join(['a', 'b', 'c']) == 'a b c'] *)
Example join_spaces :
  join (lit " ") [lit "a"; lit "b"; lit "c"] = lit "a b c".
Proof. reflexivity. Qed.

(** Ten lines of which two start with [//], under an unknown tag: ten
    lines, two comment lines, every structural field at its default. *)
Example generic_ten_lines :
  analyze_code (rt := sample_runtime)
    (lit ("// one" ++ nl ++ "a" ++ nl ++ "b" ++ nl ++ "  // two" ++ nl
          ++ "c" ++ nl ++ "d" ++ nl ++ "e" ++ nl ++ "f" ++ nl ++ "g" ++ nl
          ++ "h" ++ nl))
    (lit "ruby")
  = inr (mkAnalysisResult 10 2 0 0 0 (truediv 2 10) [] [] [] []).
Proof. reflexivity. Qed.

(** The sample method is found by both function patterns and by no class
    pattern. *)
Example block_source_counts :
  function_count (java_analysis (rt := sample_runtime) block_source) = 1
  /\ class_count (java_analysis (rt := sample_runtime) block_source) = 0
  /\ function_count (js_analysis (rt := sample_runtime) block_source) = 1
  /\ class_count (js_analysis (rt := sample_runtime) block_source) = 0.
Proof. repeat split. Qed.

End Checks.

(* ------------------------------------------------------------------ *)
(** ** Invariants of the record, totality, frame *)

Section Record.

Context {rt : PythonRuntime}.

Lemma produced_ratio (code : str) (r : AnalysisResult) :
  produced_by code r ->
  comment_ratio r = ratio_of (comment_lines r) (lines_of_code r).
Proof.
  intros [tree P | | |]; try reflexivity.
  rewrite python_tree_analysis_fields. reflexivity.
Qed.

Lemma produced_lines (code : str) (r : AnalysisResult) :
  produced_by code r -> lines_of_code r = List.length (splitlines code).
Proof.
  intros [tree P | | |]; try reflexivity.
  rewrite python_tree_analysis_fields. reflexivity.
Qed.

Lemma newline_only_splitlines (s cur : str) :
  newline_only s = true ->
  splitlines_from cur s = newline_delimited_from cur s.
Proof.
  revert cur. induction s as [|c rest IH]; intros cur H; [reflexivity|].
  simpl in H. apply andb_prop in H as [Hc Hrest]. simpl.
  destruct (islinebreak c) eqn:B; simpl in Hc.
  - rewrite Hc. apply N.eqb_eq in Hc. subst c.
    f_equal. destruct rest as [|d rest']; [reflexivity|].
    simpl (N.eqb LF CR && _)%bool. cbv iota. now apply IH.
  - destruct (N.eqb c LF) eqn:E.
    + apply N.eqb_eq in E. subst c. discriminate B.
    + now apply IH.
Qed.

Lemma produced_empty (r : AnalysisResult) :
  (forall tree, ast_parse [] = inr tree -> tree = Node Module []) ->
  produced_by [] r -> r = AnalysisResult_default.
Proof.
  intros P [tree Q | | |]; try reflexivity.
  rewrite (P tree Q). reflexivity.
Qed.

End Record.

(** C1. For every source text and language tag the call returns a record
    whose [comment_ratio] is [comment_lines / lines_of_code] when
    [lines_of_code] is positive and [0] when it is zero. *)
Theorem comment_ratio_is_quotient {rt : PythonRuntime} (code language : str) :
  exists r,
    analyze_code code language = inr r
    /\ (0 < lines_of_code r ->
        comment_ratio r = truediv (comment_lines r) (lines_of_code r))
    /\ (lines_of_code r = 0 -> comment_ratio r = 0%Q).
Proof.
  destruct (analyze_code_returns code language) as [r [E B]].
  exists r. split; [exact E|].
  rewrite (produced_ratio _ _ B). split; intros H.
  - now apply ratio_of_pos.
  - rewrite H. apply ratio_of_zero.
Qed.

Lemma comment_ratio_is_quotient_witness :
  exists r,
    analyze_code (rt := sample_runtime) block_source (lit "java") = inr r
    /\ (0 < lines_of_code r ->
        comment_ratio r = truediv (comment_lines r) (lines_of_code r))
    /\ (lines_of_code r = 0 -> comment_ratio r = 0%Q).
Proof.
  exact (comment_ratio_is_quotient (rt := sample_runtime)
           block_source (lit "java")).
Defined.

(** C2. The call always returns a record, whatever the text and the tag;
    and when the parser raises on the text, the Python path returns exactly
    what the generic analysis returns on it. *)
Theorem analyze_code_total {rt : PythonRuntime} (code language : str) :
  (exists r, analyze_code code language = inr r)
  /\ (forall e, ast_parse code = inl e ->
       analyze_code code (lit "python") = _analyze_generic code
       /\ analyze_code code (lit "python") = inr (generic_analysis code)).
Proof.
  split.
  - destruct (analyze_code_returns code language) as [r [E _]]. now exists r.
  - intros e P.
    assert (D : analyze_code code (lit "python") = _analyze_python code)
      by reflexivity.
    rewrite D, (analyze_python_failed _ _ P). split; reflexivity.
Qed.

Lemma analyze_code_total_witness :
  ast_parse (PythonRuntime := sample_runtime) (lit "def") = inl SyntaxError
  /\ analyze_code (rt := sample_runtime) (lit "def") (lit "python")
     = inr (generic_analysis (lit "def")).
Proof.
  split; [reflexivity|].
  exact (proj2 (proj2 (analyze_code_total (rt := sample_runtime)
                         (lit "def") (lit "python"))
                  SyntaxError eq_refl)).
Defined.

(** C8. On the Java and the JavaScript path [cyclomatic_complexity] stays
    [0] and [imports] stays empty; the generic analysis leaves every field
    but [lines_of_code], [comment_lines] and [comment_ratio] at its
    default. *)
Theorem lexical_and_generic_defaults {rt : PythonRuntime} (code : str) :
  exists rj rs rg,
    analyze_code code (lit "java") = inr rj
    /\ analyze_code code (lit "javascript") = inr rs
    /\ _analyze_generic code = inr rg
    /\ cyclomatic_complexity rj = 0 /\ imports rj = []
    /\ cyclomatic_complexity rs = 0 /\ imports rs = []
    /\ function_count rg = 0 /\ class_count rg = 0
    /\ cyclomatic_complexity rg = 0
    /\ imports rg = [] /\ functions rg = [] /\ classes rg = []
    /\ comments rg = [].
Proof.
  exists (java_analysis code), (js_analysis code), (generic_analysis code).
  repeat split.
Qed.

(** C7, as stated, fails: a form feed is a line boundary of
    [str.splitlines] and not a newline, so the text [a], form feed, [b] has
    two lines for the analyzer and one newline-delimited line. *)
Lemma form_feed_is_a_line_boundary :
  exists r,
    analyze_code (rt := sample_runtime) form_feed_source (lit "java") = inr r
    /\ lines_of_code r = 2
    /\ List.length (newline_delimited_lines form_feed_source) = 1.
Proof.
  exists (java_analysis (rt := sample_runtime) form_feed_source).
  repeat split.
Qed.

(** C7, amended. For every text and tag [lines_of_code] is the number of
    lines of [str.splitlines], whose boundaries are LF, CR, CR LF, VT, FF,
    FS, GS, RS, NEL, LS and PS, and after the last of which an empty rest is
    no line; for a text whose only boundaries are newline characters this is
    the number of newline-delimited lines.  The empty text, which the
    parser turns into a module without statements when it accepts it,
    yields the default record: all counts and the ratio zero, all sequences
    empty. *)
Theorem lines_of_code_counts_splitlines {rt : PythonRuntime}
    (code language : str) :
  (exists r,
     analyze_code code language = inr r
     /\ lines_of_code r = List.length (splitlines code)
     /\ (newline_only code = true ->
         lines_of_code r = List.length (newline_delimited_lines code)))
  /\ ((forall tree, ast_parse [] = inr tree -> tree = Node Module []) ->
      analyze_code [] language = inr AnalysisResult_default).
Proof.
  split.
  - destruct (analyze_code_returns code language) as [r [E B]].
    exists r. split; [exact E|].
    rewrite (produced_lines _ _ B). split; [reflexivity|].
    intros H. unfold splitlines, newline_delimited_lines.
    now rewrite (newline_only_splitlines _ _ H).
  - intros P.
    destruct (analyze_code_returns [] language) as [r [E B]].
    now rewrite E, (produced_empty _ P B).
Qed.

Lemma lines_of_code_counts_splitlines_witness :
  (exists r,
     analyze_code (rt := sample_runtime) block_source (lit "python") = inr r
     /\ lines_of_code r = 7
     /\ List.length (newline_delimited_lines block_source) = 7)
  /\ analyze_code (rt := sample_runtime) [] (lit "python")
     = inr AnalysisResult_default.
Proof.
  destruct (lines_of_code_counts_splitlines (rt := sample_runtime)
              block_source (lit "python")) as [[r [E [L N]]] Z].
  split.
  - exists r. split; [exact E|]. split.
    + rewrite L. reflexivity.
    + rewrite <- (N eq_refl), L. reflexivity.
  - apply Z. intros tree H. injection H as <-. reflexivity.
Defined.

(* ------------------------------------------------------------------ *)
(** ** The tree walk *)

Section Walk.

Lemma node_size_pos (n : node) : 0 < node_size n.
Proof. destruct n. simpl. lia. Qed.

Lemma forest_size_app (a b : list node) :
  forest_size (a ++ b) = forest_size a + forest_size b.
Proof. unfold forest_size. now rewrite map_app, list_sum_app. Qed.

Lemma forest_size_cons (n : node) (rest : list node) :
  forest_size (n :: rest)
  = S (forest_size (rest ++ iter_child_nodes n)).
Proof.
  rewrite forest_size_app. destruct n as [c ch]. unfold forest_size.
  simpl. fold (forest_size ch). lia.
Qed.

(** With one unit of fuel per node the queue is emptied: the walk yields
    every node of the forest. *)
Lemma walk_queue_all (fuel : nat) (todo : list node) :
  forest_size todo <= fuel ->
  Permutation (walk_queue fuel todo)
    (flat_map (fun c : node => c :: descendants c) todo).
Proof.
  revert todo. induction fuel as [|fuel IH]; intros todo H.
  - destruct todo as [|n rest]; [constructor|].
    rewrite forest_size_cons in H. lia.
  - destruct todo as [|n rest]; [constructor|].
    rewrite forest_size_cons in H. simpl.
    constructor. rewrite (IH (rest ++ iter_child_nodes n)) by lia.
    rewrite flat_map_app. destruct n as [c ch]. simpl.
    apply Permutation_app_comm.
Qed.

Lemma walk_all (n : node) : Permutation (walk n) (n :: descendants n).
Proof.
  unfold walk. rewrite walk_queue_all.
  - simpl. now rewrite app_nil_r.
  - unfold forest_size. simpl. lia.
Qed.

Lemma count_nodes_perm (p : node -> bool) (a b : list node) :
  Permutation a b -> count_nodes p a = count_nodes p b.
Proof.
  unfold count_nodes. induction 1; simpl; auto.
  - destruct (p x); simpl; congruence.
  - destruct (p x), (p y); reflexivity.
  - congruence.
Qed.

Lemma complexity_fold (l : list node) (c : nat) :
  fold_left complexity_step l c = c + count_nodes is_branching l.
Proof.
  revert c. induction l as [|n l IH]; intros c; simpl.
  - unfold count_nodes. simpl. lia.
  - rewrite IH. unfold complexity_step, count_nodes, is_branching. simpl.
    destruct (is_branching_stmt n); simpl; [lia|].
    destruct (is_comprehension n); simpl; lia.
Qed.

Lemma function_is_not_branching (n : node) :
  is_FunctionDef n = true -> is_branching n = false.
Proof.
  destruct n as [c ch].
  unfold is_FunctionDef, is_branching, is_branching_stmt, is_comprehension.
  simpl. destruct c; intros H; try discriminate H; reflexivity.
Qed.

Lemma complexity_of_function (n : node) :
  is_FunctionDef n = true ->
  _calculate_cyclomatic_complexity n
  = 1 + count_nodes is_branching (descendants n).
Proof.
  intros H. unfold _calculate_cyclomatic_complexity.
  rewrite complexity_fold, (count_nodes_perm _ _ _ (walk_all n)).
  unfold count_nodes. simpl.
  now rewrite (function_is_not_branching _ H).
Qed.

Lemma visit_function (r : AnalysisResult) (n : node) :
  is_FunctionDef n = true ->
  functions (visit r n) = functions r ++ [function_entry n]
  /\ function_count (visit r n) = function_count r + 1
  /\ cyclomatic_complexity (visit r n)
     = Nat.max (cyclomatic_complexity r) (fn_complexity (function_entry n)).
Proof.
  intros H. pose proof (complexity_of_function n H) as C.
  destruct n as [c ch]. destruct c; try discriminate H.
  unfold function_entry. simpl class_of. cbv iota.
  simpl. rewrite C. auto.
Qed.

Lemma visit_other (r : AnalysisResult) (n : node) :
  is_FunctionDef n = false ->
  functions (visit r n) = functions r
  /\ function_count (visit r n) = function_count r
  /\ cyclomatic_complexity (visit r n) = cyclomatic_complexity r.
Proof.
  destruct n as [c ch]. destruct c; intros H; try discriminate H;
    simpl; auto.
Qed.

(** What the tree loop has written after any number of nodes. *)
Lemma visit_all_functions (l : list node) (r : AnalysisResult) :
  let fs := List.map function_entry (filter is_FunctionDef l) in
  functions (fold_left visit l r) = functions r ++ fs
  /\ function_count (fold_left visit l r) = function_count r + List.length fs
  /\ cyclomatic_complexity (fold_left visit l r)
     = Nat.max (cyclomatic_complexity r)
         (list_max (List.map fn_complexity fs)).
Proof.
  revert r. induction l as [|n l IH]; intros r; simpl.
  - rewrite app_nil_r. repeat split; lia.
  - destruct (IH (visit r n)) as [F [N C]].
    rewrite F, N, C. clear F N C IH.
    destruct (is_FunctionDef n) eqn:D.
    + destruct (visit_function r n D) as [F [N C]]. rewrite F, N, C.
      simpl. rewrite <- app_assoc. repeat split; simpl; lia.
    + destruct (visit_other r n D) as [F [N C]]. rewrite F, N, C.
      repeat split.
Qed.

Lemma visited_functions (code : str) (tree : node) :
  let fs := List.map function_entry (filter is_FunctionDef (walk tree)) in
  functions (visited code tree) = fs
  /\ function_count (visited code tree) = List.length fs
  /\ cyclomatic_complexity (visited code tree)
     = list_max (List.map fn_complexity fs).
Proof.
  unfold visited.
  destruct (visit_all_functions (walk tree)
              (set_lines_of_code (List.length (splitlines code))
                 AnalysisResult_default)) as [F [N C]].
  simpl. rewrite F, N, C. simpl. repeat split.
Qed.

Lemma function_entry_complexity_pos (l : list node) :
  Forall (fun c => 1 <= c)
    (List.map fn_complexity
       (List.map function_entry (filter is_FunctionDef l))).
Proof.
  induction l as [|n l IH]; simpl; [constructor|].
  destruct (is_FunctionDef n) eqn:D; [|exact IH].
  simpl. constructor; [|exact IH].
  destruct n as [c ch]. destruct c; try discriminate D.
  unfold function_entry. simpl. lia.
Qed.

Lemma list_max_pos (l : list nat) :
  l <> [] -> Forall (fun c => 1 <= c) l -> 1 <= list_max l.
Proof.
  destruct l as [|x l]; [congruence|].
  intros _ H. inversion_clear H. simpl. lia.
Qed.

(** Counting two disjoint kinds that cover a third. *)
Lemma count_nodes_split (p q1 q2 : node -> bool) (l : list node) :
  (forall d, In d l -> p d = (q1 d || q2 d)%bool) ->
  (forall d, In d l -> q1 d = true -> q2 d = false) ->
  count_nodes p l = count_nodes q1 l + count_nodes q2 l.
Proof.
  unfold count_nodes. induction l as [|d l IH]; intros H X; [reflexivity|].
  simpl. rewrite (H d (or_introl eq_refl)).
  pose proof (X d (or_introl eq_refl)) as Xd.
  assert (I : List.length (filter p l)
              = List.length (filter q1 l) + List.length (filter q2 l)).
  { apply IH; intros; [apply H | apply X]; simpl; auto. }
  destruct (q1 d); simpl.
  - rewrite (Xd eq_refl). simpl. lia.
  - destruct (q2 d); simpl; lia.
Qed.

End Walk.

(** The kinds the analyzer tests for are the kinds the specification
    lists, no more and no fewer. *)
Lemma tested_kinds_are_listed (n : node) : is_branching n = is_listed_kind n.
Proof.
  destruct n as [c ch].
  unfold is_branching, is_branching_stmt, is_comprehension, is_listed_kind,
    listed_kind_of.
  simpl class_of. destruct c; reflexivity.
Qed.

Lemma count_listed_kinds (l : list node) :
  count_nodes is_branching l = count_nodes is_listed_kind l.
Proof.
  unfold count_nodes. f_equal. apply filter_ext, tested_kinds_are_listed.
Qed.

Lemma function_entry_listed (n : node) :
  function_entry n = listed_function_entry n.
Proof.
  unfold function_entry, listed_function_entry.
  now rewrite count_listed_kinds.
Qed.

(** C3. On the Python path the entries of [functions] are those of the
    function definitions met by the walk, each with complexity one plus the
    number of its descendants that are a conditional, a while loop, a for
    loop, an async for, an async with, a try block, an exception handler,
    an assert, a boolean operator chain or a comprehension clause; a
    function with exactly one [if], one [for] and no other such node has
    complexity 3. *)
Theorem function_complexity_counts_branching {rt : PythonRuntime}
    (code : str) (tree : node) :
  ast_parse code = inr tree ->
  (exists r,
     analyze_code code (lit "python") = inr r
     /\ functions r
        = List.map listed_function_entry (filter is_FunctionDef (walk tree))
     /\ Permutation (walk tree) (tree :: descendants tree))
  /\ (forall f,
        is_FunctionDef f = true ->
        _calculate_cyclomatic_complexity f
        = 1 + count_nodes is_listed_kind (descendants f)
        /\ (count_nodes is_If (descendants f) = 1 ->
            count_nodes is_For (descendants f) = 1 ->
            (forall d, In d (descendants f) ->
                       is_listed_kind d = (is_If d || is_For d)%bool) ->
            _calculate_cyclomatic_complexity f = 3)).
Proof.
  intros P. split.
  - exists (python_tree_analysis code tree). split; [|split].
    + now apply analyze_python_parsed.
    + rewrite python_tree_analysis_fields. simpl.
      destruct (visited_functions code tree) as [F _]. rewrite F.
      apply map_ext, function_entry_listed.
    + apply walk_all.
  - intros f D. pose proof (complexity_of_function f D) as C.
    rewrite count_listed_kinds in C.
    split; [exact C|]. intros HI HF HB. rewrite C.
    rewrite (count_nodes_split is_listed_kind is_If is_For _ HB).
    + rewrite HI, HF. reflexivity.
    + intros d _. unfold is_If, is_For. destruct (class_of d);
        intros E; try discriminate E; reflexivity.
Qed.

Lemma function_complexity_counts_branching_witness :
  (exists r,
     analyze_code (rt := sample_runtime) loop_source (lit "python") = inr r
     /\ functions r = [mkFunctionInfo (lit "f") 1 3 1])
  /\ _calculate_cyclomatic_complexity loop_function = 3
  /\ count_nodes is_listed_kind (descendants every_kind_function) = 10
  /\ _calculate_cyclomatic_complexity every_kind_function = 11.
Proof.
  destruct (function_complexity_counts_branching (rt := sample_runtime)
              loop_source loop_tree eq_refl) as [[r [E [F _]]] K].
  split; [|split; [|split]].
  - exists r. split; [exact E|]. rewrite F. reflexivity.
  - destruct (K loop_function eq_refl) as [_ T].
    apply T; [reflexivity | reflexivity |].
    intros d H. simpl in H.
    repeat (destruct H as [<- | H]; [reflexivity|]). destruct H.
  - reflexivity.
  - destruct (K every_kind_function eq_refl) as [C _].
    rewrite C. reflexivity.
Defined.

(** C4, as stated, fails: the tree of the empty text has no function
    definition and the record-level complexity is then [0], not [1]. *)
Lemma complexity_without_functions_is_zero :
  exists r,
    analyze_code (rt := sample_runtime) [] (lit "python") = inr r
    /\ function_count r = 0
    /\ functions r = []
    /\ cyclomatic_complexity r = 0.
Proof.
  exists (python_tree_analysis [] (Node Module [])). repeat split.
Qed.

(** C4, amended. On the Python path the record-level
    [cyclomatic_complexity] is the maximum of the complexities of the
    functions detected: at least [1] when a function is detected, and [0],
    the default, when none is. *)
Theorem record_complexity_is_maximum {rt : PythonRuntime}
    (code : str) (tree : node) :
  ast_parse code = inr tree ->
  exists r,
    analyze_code code (lit "python") = inr r
    /\ function_count r = List.length (functions r)
    /\ cyclomatic_complexity r
       = list_max (List.map fn_complexity (functions r))
    /\ (0 < function_count r -> 1 <= cyclomatic_complexity r)
    /\ (function_count r = 0 -> cyclomatic_complexity r = 0).
Proof.
  intros P. exists (python_tree_analysis code tree).
  split; [now apply analyze_python_parsed|].
  rewrite python_tree_analysis_fields. simpl.
  destruct (visited_functions code tree) as [F [N C]].
  rewrite F, N, C, length_map. repeat split.
  - intros H. apply list_max_pos.
    + intros E. rewrite <- (length_map function_entry) in H.
      apply (f_equal (@List.length nat)) in E.
      rewrite !length_map in E. rewrite length_map in H. simpl in E. lia.
    + apply function_entry_complexity_pos.
  - intros H. apply length_zero_iff_nil in H. now rewrite H.
Qed.

Lemma record_complexity_is_maximum_witness :
  exists r,
    analyze_code (rt := sample_runtime) loop_source (lit "python") = inr r
    /\ function_count r = 1
    /\ cyclomatic_complexity r = 3.
Proof.
  destruct (record_complexity_is_maximum (rt := sample_runtime)
              loop_source loop_tree eq_refl) as [r [E [N [C _]]]].
  exists r. split; [exact E|].
  assert (R : r = python_tree_analysis loop_source loop_tree).
  { assert (E' : analyze_code (rt := sample_runtime) loop_source
                   (lit "python")
                 = inr (python_tree_analysis loop_source loop_tree))
      by reflexivity.
    rewrite E in E'. now injection E'. }
  rewrite R. split; reflexivity.
Defined.

(** C9. On the Python path, when the tree has no plain function definition
    (its functions are all [async def]), no function is counted or listed
    and the record-level complexity stays [0], whatever branching nodes the
    async functions contain. *)
Theorem async_functions_not_counted {rt : PythonRuntime}
    (code : str) (tree : node) :
  ast_parse code = inr tree ->
  Forall (fun n => is_FunctionDef n = false) (tree :: descendants tree) ->
  exists r,
    analyze_code code (lit "python") = inr r
    /\ function_count r = 0
    /\ functions r = []
    /\ cyclomatic_complexity r = 0.
Proof.
  intros P A. exists (python_tree_analysis code tree).
  split; [now apply analyze_python_parsed|].
  rewrite python_tree_analysis_fields. simpl.
  destruct (visited_functions code tree) as [F [N C]].
  assert (Z : filter is_FunctionDef (walk tree) = []).
  { rewrite Forall_forall in A.
    assert (G : forall l, (forall n, In n l -> is_FunctionDef n = false) ->
                          filter is_FunctionDef l = []).
    { induction l as [|n l IH]; intros H; [reflexivity|]. simpl.
      rewrite (H n (or_introl eq_refl)). apply IH.
      intros m Hm. apply H. now right. }
    apply G. intros n Hn. apply A.
    now apply (Permutation_in _ (walk_all tree)). }
  rewrite F, N, C, Z. repeat split.
Qed.

Lemma async_functions_not_counted_witness :
  count_nodes is_If (descendants async_tree) = 1
  /\ exists r,
       analyze_code (rt := sample_runtime) async_source (lit "python") = inr r
       /\ function_count r = 0
       /\ functions r = []
       /\ cyclomatic_complexity r = 0.
Proof.
  split; [reflexivity|].
  apply (async_functions_not_counted (rt := sample_runtime)
           async_source async_tree eq_refl).
  repeat constructor.
Defined.

(* ------------------------------------------------------------------ *)
(** ** The comment scan of the Python path and the separator line *)

Section Separator.

Lemma python_comment_step_shift (n : nat) (cs : list str) (st : nat * list str)
    (line : str) :
  python_comment_step (n + fst st, cs ++ snd st) line
  = (n + fst (python_comment_step st line),
     cs ++ snd (python_comment_step st line)).
Proof.
  destruct st as [m ds]. unfold python_comment_step. simpl.
  destruct (startswith (strip line) (lit "#")
            && negb (startswith (strip line) (times (lit "#") 70)))%bool;
    [|reflexivity].
  destruct (truthy _); simpl; rewrite ?app_assoc; f_equal; lia.
Qed.

Lemma python_scan_shift (lines : list str) (n : nat) (cs : list str)
    (st : nat * list str) :
  fold_left python_comment_step lines (n + fst st, cs ++ snd st)
  = (n + fst (fold_left python_comment_step lines st),
     cs ++ snd (fold_left python_comment_step lines st)).
Proof.
  revert st. induction lines as [|l lines IH]; intros st; [reflexivity|].
  cbn [fold_left]. rewrite python_comment_step_shift. apply IH.
Qed.

(** The scan of two lists of lines in a row. *)
Lemma python_scan_app (a b : list str) :
  fold_left python_comment_step (a ++ b) (0, [])
  = (python_comment_count a + python_comment_count b,
     python_comments a ++ python_comments b).
Proof.
  rewrite fold_left_app.
  destruct (fold_left python_comment_step a (0, [])) as [n cs] eqn:E.
  unfold python_comment_count, python_comments. rewrite E. simpl.
  pose proof (python_scan_shift b n cs (0, [])) as S. simpl in S.
  rewrite Nat.add_0_r, app_nil_r in S. exact S.
Qed.

Lemma separator_skipped (st : nat * list str) :
  python_comment_step st separator = st.
Proof. destruct st. reflexivity. Qed.

Lemma separator_is_generic_comment : generic_is_comment separator = true.
Proof. reflexivity. Qed.

Lemma python_scan_separator (pre post : list str) :
  fold_left python_comment_step (pre ++ separator :: post) (0, [])
  = fold_left python_comment_step (pre ++ post) (0, []).
Proof.
  rewrite !fold_left_app. simpl. now rewrite separator_skipped.
Qed.

Lemma generic_comment_lines_app (a b : list str) :
  generic_comment_lines (a ++ b)
  = generic_comment_lines a + generic_comment_lines b.
Proof.
  unfold generic_comment_lines. now rewrite filter_app, length_app.
Qed.

End Separator.

(** C6. When one of the lines of the text is the line of seventy [#], the
    generic analysis counts it among the comment lines, and the Python
    path takes nothing from it: its comments are those of the lines
    before followed by those of the lines after, and it counts no comment
    line for it. *)
Theorem separator_line_counted_not_extracted {rt : PythonRuntime}
    (code : str) (tree : node) (pre post : list str) :
  splitlines code = pre ++ separator :: post ->
  ast_parse code = inr tree ->
  (exists g,
     _analyze_generic code = inr g
     /\ comment_lines g
        = generic_comment_lines pre + 1 + generic_comment_lines post)
  /\ (exists r,
        analyze_code code (lit "python") = inr r
        /\ comments r = python_comments pre ++ python_comments post
        /\ comment_lines r
           = python_comment_count pre + python_comment_count post).
Proof.
  intros L P. split.
  - exists (generic_analysis code). split; [reflexivity|].
    unfold generic_analysis. simpl. rewrite L.
    rewrite generic_comment_lines_app.
    change (separator :: post) with ([separator] ++ post).
    rewrite generic_comment_lines_app.
    assert (S : generic_comment_lines [separator] = 1) by reflexivity.
    rewrite S. lia.
  - exists (python_tree_analysis code tree).
    split; [now apply analyze_python_parsed|].
    rewrite python_tree_analysis_fields. simpl.
    rewrite L, python_scan_separator, python_scan_app. split; reflexivity.
Qed.

Lemma separator_line_counted_not_extracted_witness :
  (exists g,
     _analyze_generic separator_source = inr g /\ comment_lines g = 2)
  /\ (exists r,
        analyze_code (rt := sample_runtime) separator_source (lit "python")
        = inr r
        /\ comments r = [lit "title"]
        /\ comment_lines r = 1).
Proof.
  destruct (separator_line_counted_not_extracted (rt := sample_runtime)
              separator_source assignment_tree [lit "# title"] [lit "x = 1"]
              eq_refl eq_refl) as [[g [G Gn]] [r [R [Rc Rn]]]].
  split.
  - exists g. split; [exact G|]. rewrite Gn. reflexivity.
  - exists r. split; [exact R|]. rewrite Rc, Rn. split; reflexivity.
Defined.

(* ------------------------------------------------------------------ *)
(** ** Block comments on the lexical paths *)

Section BlockComments.

Lemma append_if_text_app (cs xs : list str) (t : str) :
  append_if_text (cs ++ xs) t = cs ++ append_if_text xs t.
Proof.
  unfold append_if_text. destruct (truthy t); [|reflexivity].
  now rewrite app_assoc.
Qed.

Lemma append_if_text_filter (xs : list str) (t : str) :
  append_if_text xs t = xs ++ filter truthy [t].
Proof.
  unfold append_if_text. simpl. destruct (truthy t); [reflexivity|].
  now rewrite app_nil_r.
Qed.

(** Two states that differ by the bracketing of a sum or of an append. *)
Ltac same_state :=
  simpl; rewrite ?Nat.add_assoc, ?append_if_text_app, <- ?app_assoc;
  reflexivity.

(** The counters of a scan do not depend on what was counted before. *)
Lemma java_step_shift (n : nat) (cs : list str) (st : java_state)
    (line : str) :
  java_step (j_shift n cs st) line = j_shift n cs (java_step st line).
Proof.
  destruct st as [b content m ds]. unfold java_step, j_shift. simpl.
  destruct b.
  - destruct (contains (lit "*/") line).
    + destruct (append_if_text content _); simpl; same_state.
    + same_state.
  - destruct (startswith (strip line) (lit "//")); [simpl; same_state|].
    destruct (startswith (strip line) (lit "/*")); [|reflexivity].
    destruct (contains (lit "*/") (strip line)); simpl; same_state.
Qed.

Lemma java_scan_shift (lines : list str) (n : nat) (cs : list str)
    (st : java_state) :
  java_scan (j_shift n cs st) lines = j_shift n cs (java_scan st lines).
Proof.
  unfold java_scan. revert st.
  induction lines as [|l lines IH]; intros st; [reflexivity|].
  cbn [fold_left]. rewrite java_step_shift. apply IH.
Qed.

Lemma js_step_shift (n : nat) (cs : list str) (st : js_state) (line : str) :
  js_step (s_shift n cs st) line = s_shift n cs (js_step st line).
Proof.
  destruct st as [b m ds]. unfold js_step, s_shift. simpl.
  destruct b.
  - destruct (contains (lit "*/") line); simpl; same_state.
  - destruct (startswith (strip line) (lit "//")); [simpl; same_state|].
    destruct (startswith (strip line) (lit "/*")); [|reflexivity].
    destruct (contains (lit "*/") (strip line)); simpl; same_state.
Qed.

Lemma js_scan_shift (lines : list str) (n : nat) (cs : list str)
    (st : js_state) :
  js_scan (s_shift n cs st) lines = s_shift n cs (js_scan st lines).
Proof.
  unfold js_scan. revert st.
  induction lines as [|l lines IH]; intros st; [reflexivity|].
  cbn [fold_left]. rewrite js_step_shift. apply IH.
Qed.

(** Outside a block comment the accumulator of the Java scan is empty. *)
Lemma java_step_content (st : java_state) (line : str) :
  (j_in_block_comment st = false -> j_block_comment_content st = []) ->
  j_in_block_comment (java_step st line) = false ->
  j_block_comment_content (java_step st line) = [].
Proof.
  destruct st as [b content m ds]. unfold java_step. simpl. intros I.
  destruct b.
  - destruct (contains (lit "*/") line).
    + destruct (append_if_text content _); reflexivity.
    + discriminate.
  - specialize (I eq_refl). subst content.
    destruct (startswith (strip line) (lit "//")); [reflexivity|].
    destruct (startswith (strip line) (lit "/*")); [|reflexivity].
    destruct (contains (lit "*/") (strip line)); [reflexivity|discriminate].
Qed.

Lemma java_scan_content (lines : list str) (st : java_state) :
  (j_in_block_comment st = false -> j_block_comment_content st = []) ->
  j_in_block_comment (java_scan st lines) = false ->
  j_block_comment_content (java_scan st lines) = [].
Proof.
  unfold java_scan. revert st.
  induction lines as [|l lines IH]; intros st I; [exact I|].
  cbn [fold_left]. apply IH. now apply java_step_content.
Qed.

Lemma block_opener_is_not_line_comment (s : str) :
  startswith s (lit "/*") = true -> startswith s (lit "//") = false.
Proof.
  change (lit "/*") with [47%N; 42%N]. change (lit "//") with [47%N; 47%N].
  destruct s as [|a [|b s]]; cbn [startswith]; intros H;
    try discriminate H.
  - now rewrite andb_false_r.
  - apply andb_prop in H as [_ H]. apply andb_prop in H as [H _].
    apply N.eqb_eq in H. subst b.
    change (N.eqb 47 42) with false. now rewrite andb_false_r.
Qed.

(** The lines inside a block comment, read by the Java scan. *)
Lemma java_scan_inner (inner : list str) (content : list str) (n : nat)
    (cs : list str) :
  Forall (fun l => contains (lit "*/") l = false) inner ->
  java_scan (mkJavaState true content n cs) inner
  = mkJavaState true
      (content ++ filter truthy (List.map inner_text inner))
      (n + List.length inner) cs.
Proof.
  unfold java_scan. revert content n.
  induction inner as [|l inner IH]; intros content n H.
  - simpl. rewrite app_nil_r. f_equal. lia.
  - inversion_clear H as [|? ? Hl Hi]. cbn [fold_left].
    unfold java_step at 2. simpl. rewrite Hl.
    rewrite IH by exact Hi. fold (inner_text l).
    rewrite append_if_text_filter, <- app_assoc.
    f_equal; [|simpl; lia].
    f_equal. simpl. destruct (truthy (inner_text l)); reflexivity.
Qed.

Lemma java_step_opener (opener : str) (n : nat) (cs : list str) :
  opens_block opener = true ->
  java_step (mkJavaState false [] n cs) opener
  = mkJavaState true (filter truthy [opener_text opener]) (n + 1) cs.
Proof.
  intros O. unfold opens_block in O.
  apply andb_prop in O as [O1 O2]. apply negb_true_iff in O2.
  unfold java_step. simpl j_in_block_comment. cbv iota.
  rewrite (block_opener_is_not_line_comment _ O1), O1, O2.
  fold (opener_text opener). now rewrite append_if_text_filter.
Qed.

Lemma java_step_closer (closer : str) (content : list str) (n : nat)
    (cs : list str) :
  contains (lit "*/") closer = true ->
  java_step (mkJavaState true content n cs) closer
  = mkJavaState false [] (n + 1)
      (cs ++ match content ++ filter truthy [closer_text closer] with
             | [] => []
             | texts => [join (lit " ") texts]
             end).
Proof.
  intros C. unfold java_step. simpl j_in_block_comment. cbv iota.
  rewrite C. fold (closer_text closer).
  simpl j_block_comment_content. rewrite append_if_text_filter.
  destruct (content ++ filter truthy [closer_text closer]);
    simpl; now rewrite ?app_nil_r.
Qed.

(** A whole block comment, read by the Java scan from outside a block. *)
Lemma java_scan_block (opener closer : str) (inner : list str) (n : nat)
    (cs : list str) :
  opens_block opener = true ->
  Forall (fun l => contains (lit "*/") l = false) inner ->
  contains (lit "*/") closer = true ->
  java_scan (mkJavaState false [] n cs) (opener :: inner ++ [closer])
  = mkJavaState false [] (n + (2 + List.length inner))
      (cs ++ block_entry opener inner closer).
Proof.
  intros O I C. unfold java_scan. cbn [fold_left].
  rewrite fold_left_app, (java_step_opener _ _ _ O).
  fold (java_scan (mkJavaState true (filter truthy [opener_text opener])
                     (n + 1) cs) inner).
  rewrite (java_scan_inner _ _ _ _ I). cbn [fold_left].
  rewrite (java_step_closer _ _ _ _ C).
  unfold block_entry, block_texts.
  change (opener_text opener
          :: List.map inner_text inner ++ [closer_text closer])
    with ([opener_text opener]
          ++ List.map inner_text inner ++ [closer_text closer]).
  rewrite !filter_app, <- !app_assoc.
  replace (n + 1 + List.length inner + 1)
    with (n + (2 + List.length inner)) by lia.
  reflexivity.
Qed.

(** A whole block comment, read by the JavaScript scan. *)
Lemma js_scan_inner (inner : list str) (n : nat) (cs : list str) :
  Forall (fun l => contains (lit "*/") l = false) inner ->
  js_scan (mkJsState true n cs) inner
  = mkJsState true (n + List.length inner) cs.
Proof.
  unfold js_scan. revert n.
  induction inner as [|l inner IH]; intros n H.
  - simpl. f_equal. lia.
  - inversion_clear H as [|? ? Hl Hi]. cbn [fold_left].
    unfold js_step at 2. simpl. rewrite Hl.
    rewrite IH by exact Hi. f_equal. simpl. lia.
Qed.

Lemma js_scan_block (opener closer : str) (inner : list str) (n : nat)
    (cs : list str) :
  opens_block opener = true ->
  Forall (fun l => contains (lit "*/") l = false) inner ->
  contains (lit "*/") closer = true ->
  js_scan (mkJsState false n cs) (opener :: inner ++ [closer])
  = mkJsState false (n + (2 + List.length inner))
      (cs ++ filter truthy [opener_text opener; closer_text closer]).
Proof.
  intros O I C. unfold opens_block in O.
  apply andb_prop in O as [O1 O2]. apply negb_true_iff in O2.
  unfold js_scan. cbn [fold_left]. rewrite fold_left_app.
  unfold js_step at 3. simpl s_in_block_comment. cbv iota.
  rewrite (block_opener_is_not_line_comment _ O1), O1, O2.
  fold (opener_text opener). simpl s_comment_lines. simpl s_comments.
  fold (js_scan (mkJsState true (n + 1)
                   (append_if_text cs (opener_text opener))) inner).
  rewrite (js_scan_inner _ _ _ I). cbn [fold_left].
  unfold js_step. simpl s_in_block_comment. cbv iota. rewrite C.
  fold (closer_text closer). simpl s_comment_lines. simpl s_comments.
  rewrite !append_if_text_filter, <- app_assoc.
  change [opener_text opener; closer_text closer]
    with ([opener_text opener] ++ [closer_text closer]).
  rewrite filter_app.
  replace (n + 1 + List.length inner + 1)
    with (n + (2 + List.length inner)) by lia.
  reflexivity.
Qed.

End BlockComments.

Section BlockInText.

Context {rt : PythonRuntime}.

Lemma java_state_as_shift (n : nat) (cs : list str) :
  mkJavaState false [] n cs = j_shift n cs java_init.
Proof.
  unfold j_shift, java_init. simpl. now rewrite Nat.add_0_r, app_nil_r.
Qed.

Lemma js_state_as_shift (n : nat) (cs : list str) :
  mkJsState false n cs = s_shift n cs js_init.
Proof.
  unfold s_shift, js_init. simpl. now rewrite Nat.add_0_r, app_nil_r.
Qed.

(** The Java scan of a text one of whose block comments is singled out. *)
Lemma java_scan_around_block (opener closer : str) (pre inner post : list str) :
  j_in_block_comment (java_scan java_init pre) = false ->
  opens_block opener = true ->
  Forall (fun l => contains (lit "*/") l = false) inner ->
  contains (lit "*/") closer = true ->
  java_scan java_init (pre ++ opener :: inner ++ closer :: post)
  = j_shift
      (j_comment_lines (java_scan java_init pre) + (2 + List.length inner))
      (j_comments (java_scan java_init pre) ++ block_entry opener inner closer)
      (java_scan java_init post).
Proof.
  intros B O I C.
  assert (E : j_block_comment_content (java_scan java_init pre) = []).
  { apply java_scan_content; [reflexivity | exact B]. }
  change (opener :: inner ++ closer :: post)
    with ((opener :: inner) ++ closer :: post).
  replace ((opener :: inner) ++ closer :: post)
    with ((opener :: inner ++ [closer]) ++ post)
    by (simpl; now rewrite <- app_assoc).
  unfold java_scan at 1. rewrite !fold_left_app.
  fold (java_scan java_init pre).
  destruct (java_scan java_init pre) as [b content n cs].
  simpl in B, E. subst b content. simpl j_comment_lines. simpl j_comments.
  fold (java_scan (mkJavaState false [] n cs) (opener :: inner ++ [closer])).
  rewrite (java_scan_block _ _ _ _ _ O I C), java_state_as_shift.
  apply java_scan_shift.
Qed.

Lemma js_scan_around_block (opener closer : str) (pre inner post : list str) :
  s_in_block_comment (js_scan js_init pre) = false ->
  opens_block opener = true ->
  Forall (fun l => contains (lit "*/") l = false) inner ->
  contains (lit "*/") closer = true ->
  js_scan js_init (pre ++ opener :: inner ++ closer :: post)
  = s_shift
      (s_comment_lines (js_scan js_init pre) + (2 + List.length inner))
      (s_comments (js_scan js_init pre)
         ++ filter truthy [opener_text opener; closer_text closer])
      (js_scan js_init post).
Proof.
  intros B O I C.
  change (opener :: inner ++ closer :: post)
    with ((opener :: inner) ++ closer :: post).
  replace ((opener :: inner) ++ closer :: post)
    with ((opener :: inner ++ [closer]) ++ post)
    by (simpl; now rewrite <- app_assoc).
  unfold js_scan at 1. rewrite !fold_left_app.
  fold (js_scan js_init pre).
  destruct (js_scan js_init pre) as [b n cs].
  simpl in B. subst b. simpl s_comment_lines. simpl s_comments.
  fold (js_scan (mkJsState false n cs) (opener :: inner ++ [closer])).
  rewrite (js_scan_block _ _ _ _ _ O I C), js_state_as_shift.
  apply js_scan_shift.
Qed.

End BlockInText.

(** C5, as stated, fails.  On the JavaScript path the five-line block
    comment leaves two entries, the text of its first and of its last line,
    and the text of the lines between is lost; on the Java path a block
    comment none of whose lines has text leaves no entry. *)
Lemma block_comment_not_one_merged_entry :
  (exists r,
     analyze_code (rt := sample_runtime) block_source (lit "javascript")
     = inr r
     /\ comment_lines r = 5
     /\ comments r = [lit "a"; lit "e"])
  /\ (exists r,
        analyze_code (rt := sample_runtime) empty_block_source (lit "java")
        = inr r
        /\ comment_lines r = 2
        /\ comments r = []).
Proof.
  split.
  - exists (js_analysis (rt := sample_runtime) block_source). repeat split.
  - exists (java_analysis (rt := sample_runtime) empty_block_source).
    repeat split.
Qed.

(** C5, amended.  Take a block comment of [N] lines that the scan meets
    outside a block comment: a line whose stripped form starts with the
    opening marker and holds no closing marker, lines without closing
    marker, a line with the closing marker.  On the Java and on the
    JavaScript path it adds [N] to [comment_lines].  On the Java path it adds
    to [comments] exactly one entry when one of its lines has text, the
    texts joined by single spaces (the text after the opening marker, the
    inner lines without their asterisks, the text before the closing
    marker), and no entry when none has. *)
Theorem block_comment_counted_and_merged {rt : PythonRuntime}
    (code opener closer : str) (pre inner post : list str) :
  splitlines code = pre ++ opener :: inner ++ closer :: post ->
  opens_block opener = true ->
  Forall (fun l => contains (lit "*/") l = false) inner ->
  contains (lit "*/") closer = true ->
  (j_in_block_comment (java_scan java_init pre) = false ->
   exists r,
     analyze_code code (lit "java") = inr r
     /\ comment_lines r
        = j_comment_lines (java_scan java_init pre)
          + (2 + List.length inner)
          + j_comment_lines (java_scan java_init post)
     /\ (block_texts opener inner closer <> [] ->
         comments r
         = j_comments (java_scan java_init pre)
           ++ [join (lit " ") (block_texts opener inner closer)]
           ++ j_comments (java_scan java_init post))
     /\ (block_texts opener inner closer = [] ->
         comments r
         = j_comments (java_scan java_init pre)
           ++ j_comments (java_scan java_init post)))
  /\ (s_in_block_comment (js_scan js_init pre) = false ->
      exists r,
        analyze_code code (lit "javascript") = inr r
        /\ comment_lines r
           = s_comment_lines (js_scan js_init pre)
             + (2 + List.length inner)
             + s_comment_lines (js_scan js_init post)).
Proof.
  intros L O I C. split; intros B.
  - exists (java_analysis code). split; [reflexivity|].
    unfold java_analysis. simpl. rewrite L.
    rewrite (java_scan_around_block _ _ _ _ _ B O I C).
    unfold j_shift. simpl. split; [reflexivity|].
    unfold block_entry. split; intros T.
    + destruct (block_texts opener inner closer); [congruence|].
      now rewrite <- app_assoc.
    + rewrite T. now rewrite app_nil_r.
  - exists (js_analysis code). split; [reflexivity|].
    unfold js_analysis. simpl. rewrite L.
    now rewrite (js_scan_around_block _ _ _ _ _ B O I C).
Qed.

Lemma block_comment_counted_and_merged_witness :
  (exists r,
     analyze_code (rt := sample_runtime) block_source (lit "java") = inr r
     /\ comment_lines r = 5
     /\ comments r = [lit "a b c d e"])
  /\ (exists r,
        analyze_code (rt := sample_runtime) block_source (lit "javascript")
        = inr r
        /\ comment_lines r = 5).
Proof.
  destruct (block_comment_counted_and_merged (rt := sample_runtime)
              block_source (lit "/* a") (lit " e */") []
              [lit " * b"; lit "c"; lit " d"]
              [lit "public int foo(int x) {"; lit "}"]
              eq_refl eq_refl)
    as [J S].
  - repeat constructor.
  - reflexivity.
  - destruct (J eq_refl) as [r [E [N [T _]]]].
    destruct (S eq_refl) as [r' [E' N']].
    split.
    + exists r. split; [exact E|]. split.
      * rewrite N. reflexivity.
      * rewrite T; [reflexivity | discriminate].
    + exists r'. split; [exact E'|]. rewrite N'. reflexivity.
Defined.

(* ------------------------------------------------------------------ *)
(** ** The matcher *)

Section Matcher.

Lemma star_match_skip (p : char -> bool) (s : str) (k : str -> option str) :
  k s <> None -> star_match p s k <> None.
Proof.
  intros H. destruct s as [|c s]; simpl; [exact H|].
  destruct (p c); [|exact H].
  destruct (star_match p s k); [discriminate | exact H].
Qed.

(** The matcher finds a match wherever the pattern has one: backtracking
    loses none. *)
Lemma rmatch_complete (r : regex) (w : str) :
  matches r w ->
  forall (s : str) (k : str -> option str),
    k s <> None -> rmatch r (w ++ s) k <> None.
Proof.
  induction 1 as [ | p c Hc | p | p c w Hc _ IH
                 | r1 r2 w1 w2 _ IH1 _ IH2 | r1 r2 w _ IH | r1 r2 w _ IH ];
    intros s k K; simpl.
  - exact K.
  - now rewrite Hc.
  - now apply star_match_skip.
  - rewrite Hc. specialize (IH s k K). simpl in IH.
    destruct (star_match p (w ++ s) k); [discriminate | contradiction].
  - rewrite <- app_assoc. apply IH1. now apply IH2.
  - specialize (IH s k K).
    destruct (rmatch r1 (w ++ s) k); [discriminate | contradiction].
  - destruct (rmatch r1 (w ++ s) k); [discriminate | now apply IH].
Qed.

Lemma match_len_complete (r : regex) (w s : str) :
  matches r w -> match_len r (w ++ s) <> None.
Proof.
  intros M. unfold match_len.
  pose proof (rmatch_complete r w M s Some) as H.
  destruct (rmatch r (w ++ s) Some); [discriminate|].
  exfalso. apply H; [discriminate | reflexivity].
Qed.

(** A text that holds a match of the pattern has at least one in the
    list of [re.findall]. *)
Lemma findall_finds (r : regex) (pre w post : str) :
  matches r w -> 1 <= findall_count r 0 (pre ++ w ++ post).
Proof.
  intros M. induction pre as [|c pre IH].
  - pose proof (match_len_complete r w post M) as H. simpl.
    destruct (w ++ post) as [|c rest]; simpl.
    + destruct (match_len r []); [lia | congruence].
    + destruct (match_len r (c :: rest)); [lia | congruence].
  - simpl. destruct (match_len r (c :: pre ++ w ++ post)); [lia | exact IH].
Qed.

(** A match is a prefix of the text, and a proper one for a pattern that
    is not nullable. *)
Lemma star_match_rest (p : char -> bool) (s : str) (k : str -> option str)
    (x : str) :
  star_match p s k = Some x ->
  exists s', k s' = Some x /\ List.length s' <= List.length s.
Proof.
  revert x. induction s as [|c s IH]; intros x; simpl.
  - intros H. exists []. auto.
  - destruct (p c).
    + destruct (star_match p s k) as [y|] eqn:E.
      * intros H. injection H as <-.
        destruct (IH y eq_refl) as [s' [K L]]. exists s'. split; [exact K|lia].
      * intros H. exists (c :: s). auto.
    + intros H. exists (c :: s). auto.
Qed.

Lemma rmatch_rest (r : regex) :
  forall (s : str) (k : str -> option str) (x : str),
    rmatch r s k = Some x ->
    exists s',
      k s' = Some x
      /\ List.length s' <= List.length s
      /\ (nullable r = false -> List.length s' < List.length s).
Proof.
  induction r as [ | p | p | r1 IH1 r2 IH2 | r1 IH1 r2 IH2 ];
    intros s k x H; simpl in H.
  - exists s. repeat split; [exact H | lia | discriminate].
  - destruct s as [|c s]; [discriminate|].
    destruct (p c); [|discriminate].
    exists s. simpl. repeat split; [exact H | lia | lia].
  - destruct (star_match_rest p s k x H) as [s' [K L]].
    exists s'. repeat split; [exact K | exact L | discriminate].
  - destruct (IH1 s _ x H) as [s1 [K1 [L1 N1]]].
    destruct (IH2 s1 k x K1) as [s2 [K2 [L2 N2]]].
    exists s2. repeat split; [exact K2 | lia |].
    simpl. intros N. apply andb_false_iff in N as [N | N].
    + specialize (N1 N). lia.
    + specialize (N2 N). lia.
  - simpl. destruct (rmatch r1 s k) as [y|] eqn:E.
    + injection H as <-.
      destruct (IH1 s k y E) as [s' [K [L N]]].
      exists s'. repeat split; [exact K | exact L |].
      intros O. apply orb_false_iff in O as [O _]. now apply N.
    + destruct (IH2 s k x H) as [s' [K [L N]]].
      exists s'. repeat split; [exact K | exact L |].
      intros O. apply orb_false_iff in O as [_ O]. now apply N.
Qed.

Lemma match_len_pos (r : regex) (s : str) (n : nat) :
  nullable r = false -> match_len r s = Some n -> 0 < n.
Proof.
  intros N. unfold match_len.
  destruct (rmatch r s Some) as [x|] eqn:E; [|discriminate].
  intros H. injection H as <-.
  destruct (rmatch_rest r s Some x E) as [s' [K [_ L]]].
  injection K as ->. specialize (L N). lia.
Qed.

Lemma matches_Lit (s : string) : matches (Lit s) (lit s).
Proof.
  unfold Lit. induction (lit s) as [|c l IH]; simpl; [constructor|].
  change (c :: l) with ([c] ++ l). constructor; [|exact IH].
  constructor. apply N.eqb_refl.
Qed.

Lemma matches_Star (p : char -> bool) (w : str) :
  forallb p w = true -> matches (Star p) w.
Proof.
  induction w as [|c w IH]; simpl; intros H; [constructor|].
  apply andb_prop in H as [Hc Hw]. constructor; auto.
Qed.

Lemma matches_Plus (p : char -> bool) (w : str) :
  w <> [] -> forallb p w = true -> matches (Plus p) w.
Proof.
  destruct w as [|c w]; [congruence|]. intros _ H. simpl in H.
  apply andb_prop in H as [Hc Hw]. unfold Plus.
  change (c :: w) with ([c] ++ w).
  constructor; [now constructor | now apply matches_Star].
Qed.

Lemma matches_cat_cons (r : regex) (rs : list regex) (w1 w2 : str) :
  matches r w1 -> matches (cat rs) w2 -> matches (cat (r :: rs)) (w1 ++ w2).
Proof. intros. simpl. now constructor. Qed.

Lemma matches_cat_nil : matches (cat []) [].
Proof. constructor. Qed.

End Matcher.

Section Patterns.

Context {rt : PythonRuntime}.

(** None of the four patterns matches the empty string. *)
Lemma patterns_not_nullable :
  nullable java_function_pattern = false
  /\ nullable java_class_pattern = false
  /\ nullable js_function_pattern = false
  /\ nullable js_class_pattern = false.
Proof. repeat split. Qed.


End Patterns.



(* ------------------------------------------------------------------ *)
(** ** Bounds on the counters *)

Section Bounds.

Context {rt : PythonRuntime}.

Lemma splitlines_from_nonempty (s cur : str) :
  cur <> [] \/ s <> [] -> splitlines_from cur s <> [].
Proof.
  revert cur. induction s as [|c rest IH]; intros cur H; simpl.
  - destruct cur; [|discriminate]. destruct H; congruence.
  - destruct (islinebreak c); [discriminate|].
    apply IH. left. destruct cur; discriminate.
Qed.

Lemma splitlines_nil (s : str) : splitlines s = [] <-> s = [].
Proof.
  split; [|now intros ->].
  intros H. destruct s as [|c rest]; [reflexivity|].
  exfalso. apply (splitlines_from_nonempty (c :: rest) []); [|exact H].
  right. discriminate.
Qed.

Lemma append_if_text_length (xs : list str) (t : str) :
  List.length (append_if_text xs t) <= S (List.length xs).
Proof.
  unfold append_if_text. destruct (truthy t); rewrite ?length_app; simpl; lia.
Qed.

Lemma java_step_bounds (st : java_state) (line : str) :
  j_comment_lines (java_step st line) <= j_comment_lines st + 1
  /\ (List.length (j_comments st) <= j_comment_lines st ->
      List.length (j_comments (java_step st line))
      <= j_comment_lines (java_step st line)).
Proof.
  destruct st as [b content n cs]. unfold java_step. simpl.
  pose proof (append_if_text_length cs) as A.
  destruct b.
  - destruct (contains (lit "*/") line).
    + destruct (append_if_text content _); simpl; rewrite ?length_app;
        simpl; lia.
    + simpl. lia.
  - destruct (startswith (strip line) (lit "//")).
    { simpl. specialize (A (strip (slice_from (strip line) 2))). lia. }
    destruct (startswith (strip line) (lit "/*")); [|simpl; lia].
    destruct (contains (lit "*/") (strip line)); simpl; [|lia].
    match goal with |- context [append_if_text cs ?t] => specialize (A t) end.
    lia.
Qed.

Lemma java_scan_bounds (lines : list str) (st : java_state) :
  j_comment_lines (java_scan st lines)
  <= j_comment_lines st + List.length lines
  /\ (List.length (j_comments st) <= j_comment_lines st ->
      List.length (j_comments (java_scan st lines))
      <= j_comment_lines (java_scan st lines)).
Proof.
  unfold java_scan. revert st.
  induction lines as [|l lines IH]; intros st; cbn [fold_left List.length].
  - split; [lia | auto].
  - destruct (java_step_bounds st l) as [S1 S2].
    destruct (IH (java_step st l)) as [I1 I2]. split; [lia | auto].
Qed.

Lemma js_step_bounds (st : js_state) (line : str) :
  s_comment_lines (js_step st line) <= s_comment_lines st + 1
  /\ (List.length (s_comments st) <= s_comment_lines st ->
      List.length (s_comments (js_step st line))
      <= s_comment_lines (js_step st line)).
Proof.
  destruct st as [b n cs]. unfold js_step. simpl.
  pose proof (append_if_text_length cs) as A.
  destruct b.
  - destruct (contains (lit "*/") line); simpl; [|lia].
    match goal with |- context [append_if_text cs ?t] => specialize (A t) end.
    lia.
  - destruct (startswith (strip line) (lit "//")).
    { simpl. specialize (A (strip (slice_from (strip line) 2))). lia. }
    destruct (startswith (strip line) (lit "/*")); [|simpl; lia].
    destruct (contains (lit "*/") (strip line)); simpl;
      match goal with |- context [append_if_text cs ?t] => specialize (A t) end;
      lia.
Qed.

Lemma js_scan_bounds (lines : list str) (st : js_state) :
  s_comment_lines (js_scan st lines)
  <= s_comment_lines st + List.length lines
  /\ (List.length (s_comments st) <= s_comment_lines st ->
      List.length (s_comments (js_scan st lines))
      <= s_comment_lines (js_scan st lines)).
Proof.
  unfold js_scan. revert st.
  induction lines as [|l lines IH]; intros st; cbn [fold_left List.length].
  - split; [lia | auto].
  - destruct (js_step_bounds st l) as [S1 S2].
    destruct (IH (js_step st l)) as [I1 I2]. split; [lia | auto].
Qed.

Lemma python_step_bounds (st : nat * list str) (line : str) :
  fst (python_comment_step st line) <= fst st + 1
  /\ (List.length (snd st) <= fst st ->
      List.length (snd (python_comment_step st line))
      <= fst (python_comment_step st line)).
Proof.
  destruct st as [n cs]. unfold python_comment_step. simpl.
  destruct (startswith (strip line) (lit "#")
            && negb (startswith (strip line) (times (lit "#") 70)))%bool;
    [|simpl; lia].
  destruct (truthy _); simpl; rewrite ?length_app; simpl; lia.
Qed.

Lemma python_scan_bounds (lines : list str) (st : nat * list str) :
  fst (fold_left python_comment_step lines st) <= fst st + List.length lines
  /\ (List.length (snd st) <= fst st ->
      List.length (snd (fold_left python_comment_step lines st))
      <= fst (fold_left python_comment_step lines st)).
Proof.
  revert st.
  induction lines as [|l lines IH]; intros st; cbn [fold_left List.length].
  - split; [lia | auto].
  - destruct (python_step_bounds st l) as [S1 S2].
    destruct (IH (python_comment_step st l)) as [I1 I2]. split; [lia | auto].
Qed.

Lemma generic_comment_lines_bound (lines : list str) :
  generic_comment_lines lines <= List.length lines.
Proof. apply filter_length_le. Qed.

Lemma truediv_bounds (a b : nat) :
  a <= b -> 0 < b -> (0 <= truediv a b)%Q /\ (truediv a b <= 1)%Q.
Proof.
  intros L P. unfold truediv.
  assert (B : (0 < inject_Z (Z.of_nat b))%Q).
  { change 0%Q with (inject_Z 0). rewrite <- Zlt_Qlt. lia. }
  split.
  - apply Qle_shift_div_l; [exact B|]. rewrite Qmult_0_l.
    change 0%Q with (inject_Z 0). rewrite <- Zle_Qle. lia.
  - apply Qle_shift_div_r; [exact B|]. rewrite Qmult_1_l.
    rewrite <- Zle_Qle. lia.
Qed.

Lemma ratio_of_bounds (a b : nat) :
  a <= b -> (0 <= ratio_of a b)%Q /\ (ratio_of a b <= 1)%Q.
Proof.
  intros L. unfold ratio_of. destruct (Nat.ltb_spec 0 b).
  - now apply truediv_bounds.
  - split; unfold Qle; simpl; lia.
Qed.

(** Every body counts at most one comment line per line and stores at most
    one comment per comment line. *)
Lemma produced_bounds (code : str) (r : AnalysisResult) :
  produced_by code r ->
  List.length (comments r) <= comment_lines r
  /\ comment_lines r <= lines_of_code r.
Proof.
  intros [tree P | | |].
  - rewrite python_tree_analysis_fields. simpl.
    destruct (python_scan_bounds (splitlines code) (0, [])) as [B1 B2].
    simpl in B1, B2. split; [apply B2; lia | exact B1].
  - unfold java_analysis. simpl.
    destruct (java_scan_bounds (splitlines code) java_init) as [B1 B2].
    simpl in B1, B2. split; [apply B2; lia | exact B1].
  - unfold js_analysis. simpl.
    destruct (js_scan_bounds (splitlines code) js_init) as [B1 B2].
    simpl in B1, B2. split; [apply B2; lia | exact B1].
  - simpl. split; [lia | apply generic_comment_lines_bound].
Qed.

End Bounds.

(** X1. Whatever the text and the tag, the record has at most one comment
    per comment line and at most one comment line per line, so its
    [comment_ratio] lies between 0 and 1; and [lines_of_code] is zero for
    the empty text only. *)
Theorem counters_are_ordered {rt : PythonRuntime} (code language : str) :
  exists r,
    analyze_code code language = inr r
    /\ List.length (comments r) <= comment_lines r
    /\ comment_lines r <= lines_of_code r
    /\ (0 <= comment_ratio r)%Q /\ (comment_ratio r <= 1)%Q
    /\ (lines_of_code r = 0 <-> code = []).
Proof.
  destruct (analyze_code_returns code language) as [r [E B]].
  exists r. split; [exact E|].
  destruct (produced_bounds code r B) as [B1 B2].
  rewrite (produced_ratio _ _ B).
  destruct (ratio_of_bounds _ _ B2) as [R1 R2].
  repeat split; try assumption.
  - rewrite (produced_lines _ _ B). intros H.
    apply length_zero_iff_nil in H. now apply splitlines_nil.
  - intros ->. now rewrite (produced_lines _ _ B).
Qed.

(* ------------------------------------------------------------------ *)
(** ** The two lexical scans side by side *)

Section SideBySide.

Lemma steps_in_step (j : java_state) (s : js_state) (line : str) :
  in_step j s -> in_step (java_step j line) (js_step s line).
Proof.
  destruct j as [b content n cs], s as [b' n' cs'].
  unfold in_step. simpl. intros [<- <-].
  unfold java_step, js_step. simpl. destruct b.
  - destruct (contains (lit "*/") line); [|simpl; auto].
    destruct (append_if_text content _); simpl; auto.
  - destruct (startswith (strip line) (lit "//")); [simpl; auto|].
    destruct (startswith (strip line) (lit "/*")); [|simpl; auto].
    destruct (contains (lit "*/") (strip line)); simpl; auto.
Qed.

Lemma scans_in_step (lines : list str) (j : java_state) (s : js_state) :
  in_step j s -> in_step (java_scan j lines) (js_scan s lines).
Proof.
  unfold java_scan, js_scan. revert j s.
  induction lines as [|l lines IH]; intros j s H; [exact H|].
  cbn [fold_left]. apply IH. now apply steps_in_step.
Qed.

End SideBySide.

(** X2. On every text the Java path and the JavaScript path count the same
    comment lines, hence return the same [comment_lines], [lines_of_code]
    and [comment_ratio]; only the texts kept in [comments] and the two
    pattern counts can differ. *)
Theorem java_and_javascript_count_alike {rt : PythonRuntime} (code : str) :
  exists rj rs,
    analyze_code code (lit "java") = inr rj
    /\ analyze_code code (lit "javascript") = inr rs
    /\ comment_lines rj = comment_lines rs
    /\ lines_of_code rj = lines_of_code rs
    /\ comment_ratio rj = comment_ratio rs.
Proof.
  exists (java_analysis code), (js_analysis code).
  split; [reflexivity|]. split; [reflexivity|].
  assert (C : comment_lines (java_analysis code)
              = comment_lines (js_analysis code)).
  { unfold java_analysis, js_analysis. simpl.
    apply (scans_in_step (splitlines code) java_init js_init).
    split; reflexivity. }
  split; [exact C|]. split; [reflexivity|].
  unfold java_analysis, js_analysis in *. simpl in *. now rewrite C.
Qed.

(* ------------------------------------------------------------------ *)
(** ** A block comment that is never closed *)

Section Unclosed.




End Unclosed.



(* ------------------------------------------------------------------ *)
(** ** The Python scan against the generic count *)

Section PythonAgainstGeneric.

Lemma python_counted_is_generic (line : str) :
  fst (python_comment_step (0, []) line) <= 
  (if generic_is_comment line then 1 else 0).
Proof.
  unfold python_comment_step, generic_is_comment, startswith_any.
  destruct (startswith (strip line) (lit "#")) eqn:H; simpl.
  - unfold generic_markers. simpl existsb. rewrite H.
    rewrite !orb_true_r. simpl.
    destruct (negb _); [|simpl; lia]. destruct (truthy _); simpl; lia.
  - lia.
Qed.

Lemma python_count_cons (l : str) (lines : list str) :
  python_comment_count (l :: lines)
  = fst (python_comment_step (0, []) l) + python_comment_count lines.
Proof.
  unfold python_comment_count. cbn [fold_left].
  destruct (python_comment_step (0, []) l) as [n cs] eqn:E.
  pose proof (python_scan_shift lines n cs (0, [])) as S. simpl in S.
  rewrite Nat.add_0_r, app_nil_r in S. rewrite S. reflexivity.
Qed.

Lemma python_count_le_generic (lines : list str) :
  python_comment_count lines <= generic_comment_lines lines.
Proof.
  induction lines as [|l lines IH]; [reflexivity|].
  rewrite python_count_cons. unfold generic_comment_lines in *.
  pose proof (python_counted_is_generic l) as H. cbn [filter].
  destruct (generic_is_comment l); cbn [List.length]; lia.
Qed.

End PythonAgainstGeneric.

(** X4. The generic analysis, which the Python path falls back to when the
    parser raises and which an unknown tag gets, never counts fewer comment
    lines than the tree analysis of the same text: every line the Python
    scan counts is counted by the generic one, which counts the lines
    starting with [//], [/*] or [*] and the separator lines besides, and
    keeps no comment text. *)
Theorem generic_counts_what_python_counts {rt : PythonRuntime}
    (code : str) (tree : node) :
  ast_parse code = inr tree ->
  exists r g,
    analyze_code code (lit "python") = inr r
    /\ analyze_code code (lit "unknown") = inr g
    /\ comment_lines r <= comment_lines g
    /\ lines_of_code r = lines_of_code g
    /\ comments g = [].
Proof.
  intros P.
  exists (python_tree_analysis code tree), (generic_analysis code).
  split; [now apply analyze_python_parsed|]. split; [reflexivity|].
  rewrite python_tree_analysis_fields. simpl.
  split; [apply python_count_le_generic | split; reflexivity].
Qed.

Lemma generic_counts_what_python_counts_witness :
  exists r g,
    analyze_code (rt := sample_runtime) separator_source (lit "python")
    = inr r
    /\ analyze_code (rt := sample_runtime) separator_source (lit "unknown")
       = inr g
    /\ comment_lines r <= comment_lines g
    /\ lines_of_code r = lines_of_code g
    /\ comments g = [].
Proof.
  exact (generic_counts_what_python_counts (rt := sample_runtime)
           separator_source assignment_tree eq_refl).
Defined.

(* ------------------------------------------------------------------ *)
(** ** Nested functions and the counts of the tree analysis *)

Section Nesting.

Lemma count_nodes_app (p : node -> bool) (a b : list node) :
  count_nodes p (a ++ b) = count_nodes p a + count_nodes p b.
Proof. unfold count_nodes. now rewrite filter_app, length_app. Qed.

Lemma count_nodes_cons_le (p : node -> bool) (n : node) (l : list node) :
  count_nodes p l <= count_nodes p (n :: l).
Proof. unfold count_nodes. simpl. destruct (p n); simpl; lia. Qed.

(** A child with its descendants is part of the descendants of the
    parent. *)
Lemma count_child_le (p : node -> bool) (child : node) (ch : list node) :
  In child ch ->
  count_nodes p (child :: descendants child)
  <= count_nodes p (flat_map (fun c => c :: descendants c) ch).
Proof.
  induction ch as [|c ch IH]; intros H; [destruct H|].
  cbn [flat_map]. rewrite count_nodes_app. destruct H as [-> | H].
  - lia.
  - specialize (IH H). lia.
Qed.

Lemma child_is_smaller (child : node) (c : node_class) (ch : list node) :
  In child ch -> node_size child < node_size (Node c ch).
Proof.
  intros H. simpl. induction ch as [|d ch IH]; [destruct H|].
  simpl. destruct H as [-> | H]; [lia|]. specialize (IH H). lia.
Qed.

(** The descendants of a descendant are among the descendants. *)
Lemma count_descendant_le (p : node -> bool) (size : nat) :
  forall f g,
    node_size f <= size ->
    In g (descendants f) ->
    count_nodes p (g :: descendants g) <= count_nodes p (descendants f).
Proof.
  induction size as [|size IH]; intros f g S H.
  - pose proof (node_size_pos f). lia.
  - destruct f as [c ch]. simpl in H.
    apply in_flat_map in H as [child [Hc Hg]].
    pose proof (count_child_le p child ch Hc) as K.
    simpl descendants. destruct Hg as [-> | Hg]; [exact K|].
    pose proof (child_is_smaller child c ch Hc) as L.
    assert (D : count_nodes p (g :: descendants g)
                <= count_nodes p (descendants child)).
    { apply IH; [lia | exact Hg]. }
    pose proof (count_nodes_cons_le p child (descendants child)). lia.
Qed.

Lemma is_ClassDef_not_function (n : node) :
  is_ClassDef n = true -> is_FunctionDef n = false.
Proof.
  destruct n as [c ch]. unfold is_ClassDef, is_FunctionDef. simpl.
  destruct c; intros H; try discriminate H; reflexivity.
Qed.

(** What the tree loop has written about classes. *)
Lemma visit_all_classes (l : list node) (r : AnalysisResult) :
  class_count (fold_left visit l r)
  = class_count r + count_nodes is_ClassDef l
  /\ List.length (classes (fold_left visit l r))
     = List.length (classes r) + count_nodes is_ClassDef l.
Proof.
  unfold count_nodes. revert r.
  induction l as [|n l IH]; intros r; cbn [fold_left filter].
  - simpl. lia.
  - destruct (IH (visit r n)) as [C L]. rewrite C, L. clear C L IH.
    assert (V : class_count (visit r n)
                = class_count r + (if is_ClassDef n then 1 else 0)
                /\ List.length (classes (visit r n))
                   = List.length (classes r)
                     + (if is_ClassDef n then 1 else 0)).
    { destruct n as [[] ch]; simpl; rewrite ?length_app; simpl; lia. }
    destruct V as [C L]. rewrite C, L.
    destruct (is_ClassDef n); simpl; lia.
Qed.

End Nesting.

(** X5. The branching nodes of a function nested in another one count for
    the enclosing function too: the complexity of a function definition is
    at least the complexity of every function definition among its
    descendants. *)
Theorem nested_function_counts_for_outer (f g : node) :
  is_FunctionDef f = true ->
  is_FunctionDef g = true ->
  In g (descendants f) ->
  _calculate_cyclomatic_complexity g <= _calculate_cyclomatic_complexity f
  /\ _calculate_cyclomatic_complexity f
     = 1 + count_nodes is_branching (descendants f)
  /\ count_nodes is_branching (descendants g)
     <= count_nodes is_branching (descendants f).
Proof.
  intros F G H.
  rewrite (complexity_of_function f F), (complexity_of_function g G).
  pose proof (count_descendant_le is_branching (node_size f) f g
                (Nat.le_refl _) H) as K.
  pose proof (count_nodes_cons_le is_branching g (descendants g)).
  repeat split; lia.
Qed.

Lemma nested_function_counts_for_outer_witness :
  _calculate_cyclomatic_complexity inner_function = 2
  /\ _calculate_cyclomatic_complexity outer_function = 3
  /\ _calculate_cyclomatic_complexity inner_function
     <= _calculate_cyclomatic_complexity outer_function.
Proof.
  split; [reflexivity|]. split; [reflexivity|].
  apply (nested_function_counts_for_outer outer_function inner_function
           eq_refl eq_refl).
  simpl. auto 10.
Defined.

(** X6. After a successful parse, [function_count] is the number of plain
    function definitions in the tree and [class_count] the number of class
    definitions, wherever they are nested, and [functions] and [classes]
    have one entry for each. *)
Theorem tree_counts_are_node_counts {rt : PythonRuntime}
    (code : str) (tree : node) :
  ast_parse code = inr tree ->
  exists r,
    analyze_code code (lit "python") = inr r
    /\ function_count r
       = count_nodes is_FunctionDef (tree :: descendants tree)
    /\ class_count r = count_nodes is_ClassDef (tree :: descendants tree)
    /\ List.length (functions r) = function_count r
    /\ List.length (classes r) = class_count r.
Proof.
  intros P. exists (python_tree_analysis code tree).
  split; [now apply analyze_python_parsed|].
  rewrite python_tree_analysis_fields. simpl.
  destruct (visited_functions code tree) as [F [N _]].
  destruct (visit_all_classes (walk tree)
              (set_lines_of_code (List.length (splitlines code))
                 AnalysisResult_default)) as [C L].
  fold (visited code tree) in C, L. simpl in C, L.
  rewrite F, N, C, L, !length_map.
  rewrite <- !(count_nodes_perm _ _ _ (walk_all tree)).
  repeat split.
Qed.

Lemma tree_counts_are_node_counts_witness :
  exists r,
    analyze_code (rt := sample_runtime) loop_source (lit "python") = inr r
    /\ function_count r = 1
    /\ class_count r = 0.
Proof.
  destruct (tree_counts_are_node_counts (rt := sample_runtime)
              loop_source loop_tree eq_refl) as [r [E [F [C _]]]].
  exists r. split; [exact E|]. rewrite F, C. split; reflexivity.
Defined.

(* ------------------------------------------------------------------ *)
(** ** The texts kept in [comments] *)

Section Trimmed.

Context {rt : PythonRuntime}.

Lemma lstrip_head (s : str) : head_ok (lstrip s).
Proof.
  induction s as [|c s IH]; simpl; [exact I|].
  destruct (isspace c) eqn:E; [exact IH | exact E].
Qed.

Lemma lstrip_fixed (s : str) : head_ok s -> lstrip s = s.
Proof. destruct s as [|c s]; simpl; [reflexivity|]. now intros ->. Qed.

Lemma lstrip_suffix (s : str) : exists p, s = p ++ lstrip s.
Proof.
  induction s as [|c s [p IH]]; [now exists []|]. simpl.
  destruct (isspace c).
  - exists (c :: p). simpl. now rewrite <- IH.
  - now exists [].
Qed.

Lemma rstrip_prefix (s : str) : exists q, s = rstrip s ++ q.
Proof.
  unfold rstrip. destruct (lstrip_suffix (rev s)) as [p H].
  exists (rev p). rewrite <- rev_app_distr, <- H. now rewrite rev_involutive.
Qed.

Lemma head_ok_prefix (a q : str) : head_ok (a ++ q) -> head_ok a.
Proof. destruct a; simpl; auto. Qed.

Lemma head_ok_app (a q : str) : a <> [] -> head_ok a -> head_ok (a ++ q).
Proof. destruct a; simpl; [congruence | auto]. Qed.

(** [strip] leaves no white space at either end. *)
Lemma strip_ends (s : str) : head_ok (strip s) /\ head_ok (rev (strip s)).
Proof.
  unfold strip. split.
  - destruct (rstrip_prefix (lstrip s)) as [q H].
    apply (head_ok_prefix _ q). rewrite <- H. apply lstrip_head.
  - unfold rstrip. rewrite rev_involutive. apply lstrip_head.
Qed.

Lemma strip_fixed (s : str) : head_ok s -> head_ok (rev s) -> strip s = s.
Proof.
  intros H R. unfold strip, rstrip.
  rewrite (lstrip_fixed s H), (lstrip_fixed (rev s) R).
  apply rev_involutive.
Qed.

Lemma strip_idempotent (s : str) : strip (strip s) = strip s.
Proof. destruct (strip_ends s). now apply strip_fixed. Qed.

Lemma trimmed_ends (s : str) :
  trimmed s <-> s <> [] /\ head_ok s /\ head_ok (rev s).
Proof.
  unfold trimmed. split.
  - intros [N E]. split; [exact N|]. rewrite <- E. apply strip_ends.
  - intros [N [H R]]. split; [exact N | now apply strip_fixed].
Qed.

Lemma append_if_text_trimmed (xs : list str) (t : str) :
  Forall trimmed xs -> Forall trimmed (append_if_text xs (strip t)).
Proof.
  intros H. unfold append_if_text.
  destruct (strip t) as [|c u] eqn:E; simpl; [exact H|].
  apply Forall_app. split; [exact H|]. constructor; [|constructor].
  split; [discriminate|]. rewrite <- E. apply strip_idempotent.
Qed.

(** Texts without white space at their ends, joined: none at the ends. *)
Lemma join_trimmed (sep : str) (parts : list str) :
  parts <> [] -> Forall trimmed parts -> trimmed (join sep parts).
Proof.
  intros N H. apply trimmed_ends.
  induction parts as [|p ps IH]; [congruence|].
  inversion_clear H as [|? ? Hp Hps].
  apply trimmed_ends in Hp as [Np [Hh Hr]].
  destruct ps as [|q ps]; [simpl; auto|].
  destruct (IH ltac:(discriminate) Hps) as [Nj [_ Rj]].
  change (join sep (p :: q :: ps)) with (p ++ sep ++ join sep (q :: ps)).
  split; [|split].
  - destruct p; [congruence | discriminate].
  - now apply head_ok_app.
  - rewrite !rev_app_distr, <- app_assoc. apply head_ok_app; [|exact Rj].
    intros E. apply Nj. rewrite <- (rev_involutive (join sep (q :: ps))).
    now rewrite E.
Qed.

Lemma java_step_trimmed (st : java_state) (line : str) :
  Forall trimmed (j_block_comment_content st) ->
  Forall trimmed (j_comments st) ->
  Forall trimmed (j_block_comment_content (java_step st line))
  /\ Forall trimmed (j_comments (java_step st line)).
Proof.
  destruct st as [b content n cs]. unfold java_step. simpl. intros C K.
  destruct b.
  - destruct (contains (lit "*/") line).
    + pose proof (append_if_text_trimmed content
                    (slice_to line (find line (lit "*/"))) C) as A.
      destruct (append_if_text content _) as [|t ts] eqn:E;
        cbn [j_block_comment_content j_comments].
      * split; [constructor | exact K].
      * split; [constructor|]. apply Forall_app. split; [exact K|].
        constructor; [|constructor]. apply join_trimmed; [discriminate|].
        exact A.
    + simpl. split; [now apply append_if_text_trimmed | exact K].
  - destruct (startswith (strip line) (lit "//")).
    { simpl. split; [exact C | now apply append_if_text_trimmed]. }
    destruct (startswith (strip line) (lit "/*")); [|simpl; auto].
    destruct (contains (lit "*/") (strip line)); simpl.
    + split; [exact C | now apply append_if_text_trimmed].
    + split; [now apply append_if_text_trimmed | exact K].
Qed.

Lemma java_scan_trimmed (lines : list str) (st : java_state) :
  Forall trimmed (j_block_comment_content st) ->
  Forall trimmed (j_comments st) ->
  Forall trimmed (j_comments (java_scan st lines)).
Proof.
  unfold java_scan. revert st.
  induction lines as [|l lines IH]; intros st C K; [exact K|].
  cbn [fold_left]. destruct (java_step_trimmed st l C K). now apply IH.
Qed.

Lemma js_step_trimmed (st : js_state) (line : str) :
  Forall trimmed (s_comments st) ->
  Forall trimmed (s_comments (js_step st line)).
Proof.
  destruct st as [b n cs]. unfold js_step. simpl. intros K.
  destruct b.
  - destruct (contains (lit "*/") line); simpl;
      [now apply append_if_text_trimmed | exact K].
  - destruct (startswith (strip line) (lit "//")).
    { simpl. now apply append_if_text_trimmed. }
    destruct (startswith (strip line) (lit "/*")); [|exact K].
    destruct (contains (lit "*/") (strip line)); simpl;
      now apply append_if_text_trimmed.
Qed.

Lemma js_scan_trimmed (lines : list str) (st : js_state) :
  Forall trimmed (s_comments st) ->
  Forall trimmed (s_comments (js_scan st lines)).
Proof.
  unfold js_scan. revert st.
  induction lines as [|l lines IH]; intros st K; [exact K|].
  cbn [fold_left]. apply IH. now apply js_step_trimmed.
Qed.

Lemma python_step_trimmed (st : nat * list str) (line : str) :
  Forall trimmed (snd st) ->
  Forall trimmed (snd (python_comment_step st line)).
Proof.
  destruct st as [n cs]. unfold python_comment_step. simpl. intros K.
  destruct (startswith (strip line) (lit "#")
            && negb (startswith (strip line) (times (lit "#") 70)))%bool;
    [|exact K].
  pose proof (append_if_text_trimmed cs (slice_from (strip line) 1) K) as A.
  unfold append_if_text in A. destruct (truthy _); simpl; assumption.
Qed.

Lemma python_scan_trimmed (lines : list str) (st : nat * list str) :
  Forall trimmed (snd st) ->
  Forall trimmed (snd (fold_left python_comment_step lines st)).
Proof.
  revert st. induction lines as [|l lines IH]; intros st K; [exact K|].
  cbn [fold_left]. apply IH. now apply python_step_trimmed.
Qed.

Lemma produced_trimmed (code : str) (r : AnalysisResult) :
  produced_by code r -> Forall trimmed (comments r).
Proof.
  intros [tree P | | |].
  - rewrite python_tree_analysis_fields. simpl.
    apply python_scan_trimmed. constructor.
  - unfold java_analysis. simpl.
    apply java_scan_trimmed; constructor.
  - unfold js_analysis. simpl. apply js_scan_trimmed. constructor.
  - constructor.
Qed.

End Trimmed.

(** X7. On every path and every text, each entry of [comments] is a
    non-empty text without white space at its ends ([strip] leaves it
    unchanged); this holds for the merged block comments of the Java path
    as well. *)
Theorem comments_are_trimmed {rt : PythonRuntime} (code language : str) :
  exists r,
    analyze_code code language = inr r
    /\ Forall (fun c => c <> [] /\ strip c = c) (comments r).
Proof.
  destruct (analyze_code_returns code language) as [r [E B]].
  exists r. split; [exact E|]. exact (produced_trimmed code r B).
Qed.

(* ------------------------------------------------------------------ *)
(** ** What the pattern counts say about the text *)

Section Counts.

Context {rt : PythonRuntime}.

Lemma star_match_sound (p : char -> bool) (s : str) (k : str -> option str)
    (x : str) :
  star_match p s k = Some x ->
  exists w rest, s = w ++ rest /\ matches (Star p) w /\ k rest = Some x.
Proof.
  revert x. induction s as [|c s IH]; intros x; simpl.
  - intros H. exists [], []. repeat split; [constructor | exact H].
  - destruct (p c) eqn:E.
    + destruct (star_match p s k) as [y|] eqn:S.
      * intros H. injection H as <-.
        destruct (IH y eq_refl) as [w [rest [-> [M K]]]].
        exists (c :: w), rest. repeat split; [now constructor | exact K].
      * intros H. exists [], (c :: s). repeat split; [constructor | exact H].
    + intros H. exists [], (c :: s). repeat split; [constructor | exact H].
Qed.

(** What the matcher reports is a match of the pattern. *)
Lemma rmatch_sound (r : regex) :
  forall (s : str) (k : str -> option str) (x : str),
    rmatch r s k = Some x ->
    exists w rest, s = w ++ rest /\ matches r w /\ k rest = Some x.
Proof.
  induction r as [ | p | p | r1 IH1 r2 IH2 | r1 IH1 r2 IH2 ];
    intros s k x H; simpl in H.
  - exists [], s. repeat split; [constructor | exact H].
  - destruct s as [|c s]; [discriminate|].
    destruct (p c) eqn:E; [|discriminate].
    exists [c], s. repeat split; [now constructor | exact H].
  - now apply star_match_sound.
  - destruct (IH1 s _ x H) as [w1 [s1 [-> [M1 K1]]]].
    destruct (IH2 s1 k x K1) as [w2 [s2 [-> [M2 K2]]]].
    exists (w1 ++ w2), s2. rewrite <- app_assoc.
    repeat split; [now constructor | exact K2].
  - destruct (rmatch r1 s k) as [y|] eqn:E.
    + injection H as <-.
      destruct (IH1 s k y E) as [w [rest [-> [M K]]]].
      exists w, rest. repeat split; [now apply m_alt_l | exact K].
    + destruct (IH2 s k x H) as [w [rest [-> [M K]]]].
      exists w, rest. repeat split; [now apply m_alt_r | exact K].
Qed.

Lemma match_len_sound (r : regex) (s : str) (n : nat) :
  match_len r s = Some n ->
  exists w rest, s = w ++ rest /\ matches r w.
Proof.
  unfold match_len. destruct (rmatch r s Some) as [x|] eqn:E; [|discriminate].
  intros _. destruct (rmatch_sound r s Some x E) as [w [rest [H [M _]]]].
  now exists w, rest.
Qed.

Lemma holds_match_tail (r : regex) (c : char) (s : str) :
  ~ holds_match r (c :: s) -> ~ holds_match r s.
Proof.
  intros N [pre [w [post [-> M]]]]. apply N.
  now exists (c :: pre), w, post.
Qed.

Lemma no_match_no_len (r : regex) (s : str) :
  ~ holds_match r s -> match_len r s = None.
Proof.
  intros N. destruct (match_len r s) as [n|] eqn:E; [|reflexivity].
  exfalso. apply N. destruct (match_len_sound r s n E) as [w [rest [-> M]]].
  now exists [], w, rest.
Qed.

Lemma findall_none (r : regex) (s : str) (skip : nat) :
  ~ holds_match r s -> findall_count r skip s = 0.
Proof.
  revert skip. induction s as [|c s IH]; intros skip N; simpl.
  - rewrite (no_match_no_len r [] N). now destruct skip.
  - pose proof (holds_match_tail r c s N) as T. destruct skip.
    + rewrite (no_match_no_len r _ N). now apply IH.
    + now apply IH.
Qed.

(** [re.findall] returns the empty list exactly for the texts that hold
    no match. *)
Lemma findall_len_zero (r : regex) (code : str) :
  findall_len r code = 0 <-> ~ holds_match r code.
Proof.
  unfold findall_len. split.
  - intros Z [pre [w [post [-> M]]]].
    pose proof (findall_finds r pre w post M). lia.
  - apply findall_none.
Qed.











End Counts.

(** X8. Each pattern count of the lexical paths is zero exactly for the
    texts that hold no match of its pattern, anywhere and across lines:
    the scan of [re.findall] finds a match whenever the text has one and
    reports nothing that is not one. *)
Theorem pattern_counts_zero_iff_no_match {rt : PythonRuntime} (code : str) :
  exists rj rs,
    analyze_code code (lit "java") = inr rj
    /\ analyze_code code (lit "javascript") = inr rs
    /\ (function_count rj = 0 <-> ~ holds_match java_function_pattern code)
    /\ (class_count rj = 0 <-> ~ holds_match java_class_pattern code)
    /\ (function_count rs = 0 <-> ~ holds_match js_function_pattern code)
    /\ (class_count rs = 0 <-> ~ holds_match js_class_pattern code).
Proof.
  exists (java_analysis code), (js_analysis code).
  split; [reflexivity|]. split; [reflexivity|].
  repeat split; try apply findall_len_zero;
    intros H; now apply findall_len_zero.
Qed.



(* ------------------------------------------------------------------ *)
(** ** From the file name to the issues *)

Section Callers.

Context {rt : PythonRuntime}.

Lemma detect_among_lookup (items : list (str * str)) (ext : str) :
  detect_among items ext
  = match language_by_extension items ext with
    | Some lang => lang
    | None => lit "unknown"
    end.
Proof.
  induction items as [|[lang lang_ext] items IH]; simpl; [reflexivity|].
  destruct (PyStr.eqb ext lang_ext); [reflexivity | exact IH].
Qed.

Lemma language_by_extension_in (items : list (str * str)) (ext lang : str) :
  language_by_extension items ext = Some lang -> In (lang, ext) items.
Proof.
  induction items as [|[l e] items IH]; simpl; [discriminate|].
  destruct (PyStr.eqb ext e) eqn:E.
  - intros H. injection H as <-. apply eqb_eq in E. subst e. now left.
  - intros H. right. now apply IH.
Qed.

Lemma eqb_false_iff (a b : str) : PyStr.eqb a b = false <-> a <> b.
Proof.
  unfold PyStr.eqb. destruct (list_eq_dec N.eq_dec a b); split;
    intros; congruence.
Qed.

(** The record-level complexity is the largest complexity listed, on
    every path. *)
Lemma produced_complexity (code : str) (r : AnalysisResult) :
  produced_by code r ->
  cyclomatic_complexity r = list_max (List.map fn_complexity (functions r)).
Proof.
  intros [tree P | | |]; try reflexivity.
  rewrite python_tree_analysis_fields. simpl.
  destruct (visited_functions code tree) as [F [_ C]].
  now rewrite C, F.
Qed.

Lemma list_max_exceeds (l : list nat) (t : Z) :
  (0 <= t)%Z ->
  (t < Z.of_nat (list_max l))%Z <-> Exists (fun c => (t < Z.of_nat c)%Z) l.
Proof.
  intros T. induction l as [|c l IH]; simpl.
  - split; [lia | intros H; inversion H].
  - rewrite Exists_cons, <- IH. lia.
Qed.

Lemma has_issue_complexity (config : Config) (analysis : AnalysisResult) :
  has_issue (lit "complexity") (_identify_issues config analysis)
  = (complexity_threshold config
     <? Z.of_nat (cyclomatic_complexity analysis))%Z.
Proof.
  unfold _identify_issues.
  destruct (complexity_threshold config <? _)%Z;
    destruct (200 <? lines_of_code analysis); reflexivity.
Qed.

Lemma has_issue_length (config : Config) (analysis : AnalysisResult) :
  has_issue (lit "length") (_identify_issues config analysis)
  = (200 <? lines_of_code analysis).
Proof.
  unfold _identify_issues.
  destruct (complexity_threshold config <? _)%Z;
    destruct (200 <? lines_of_code analysis); reflexivity.
Qed.

Lemma other_tags_leave_complexity (code language : str) :
  language <> lit "python" ->
  exists r,
    analyze_code code language = inr r /\ cyclomatic_complexity r = 0.
Proof.
  intros N. apply eqb_false_iff in N. unfold analyze_code. rewrite N.
  destruct (PyStr.eqb language (lit "java")).
  - now exists (java_analysis code).
  - destruct (PyStr.eqb language (lit "javascript")).
    + now exists (js_analysis code).
    + now exists (generic_analysis code).
Qed.

End Callers.

(** X10. Looking a supported language's extension up gives that language
    back, and [_detect_language] answers with it; for every extension the
    two lookups agree, and [_detect_language] says ['unknown'] exactly when
    [_get_language_by_extension] finds nothing. *)
Theorem extension_lookup_round_trip
    (path_suffix_lower : str -> str) (file_path : str) :
  let ext := path_suffix_lower file_path in
  (forall lang,
     In (lang, ext) supported_languages ->
     _get_language_by_extension ext = Some lang
     /\ _detect_language path_suffix_lower file_path = lang)
  /\ (forall lang,
        _get_language_by_extension ext = Some lang ->
        In (lang, ext) supported_languages
        /\ _detect_language path_suffix_lower file_path = lang)
  /\ (_get_language_by_extension ext = None <->
      _detect_language path_suffix_lower file_path = lit "unknown").
Proof.
  intros ext. unfold _detect_language, _get_language_by_extension.
  fold ext. rewrite detect_among_lookup. split; [|split].
  - intros lang H. simpl in H.
    repeat (destruct H as [H | H];
            [injection H as <- <-; split; reflexivity|]).
    destruct H.
  - intros lang H. rewrite H. split; [|reflexivity].
    now apply language_by_extension_in.
  - split; [now intros -> |].
    destruct (language_by_extension supported_languages ext) as [lang|] eqn:E;
      [|reflexivity].
    intros ->. apply language_by_extension_in in E. simpl in E.
    repeat (destruct E as [E | E]; [discriminate E|]). destruct E.
Qed.

Lemma extension_lookup_round_trip_witness :
  _get_language_by_extension (sample_suffix (lit "src/Main.java"))
  = Some (lit "java")
  /\ _detect_language sample_suffix (lit "src/Main.java") = lit "java".
Proof.
  apply (extension_lookup_round_trip sample_suffix (lit "src/Main.java")).
  simpl. auto.
Defined.

(** X11. Of the five supported languages only three have an analysis of
    their own: a file is analysed by the Python path when its suffix is
    [.py], by the Java path when it is [.java], by the JavaScript path when
    it is [.js], and by the generic analysis in every other case, the
    suffixes [.cpp] and [.go] included. *)
Theorem detected_language_routing {rt : PythonRuntime}
    (path_suffix_lower : str -> str) (file_path code : str) :
  let ext := path_suffix_lower file_path in
  let language := _detect_language path_suffix_lower file_path in
  (ext = lit ".py" -> analyze_code code language = _analyze_python code)
  /\ (ext = lit ".java" -> analyze_code code language = _analyze_java code)
  /\ (ext = lit ".js" ->
      analyze_code code language = _analyze_javascript code)
  /\ (ext <> lit ".py" -> ext <> lit ".java" -> ext <> lit ".js" ->
      analyze_code code language = _analyze_generic code).
Proof.
  intros ext language. unfold language, _detect_language. fold ext.
  repeat split.
  - intros ->. reflexivity.
  - intros ->. reflexivity.
  - intros ->. reflexivity.
  - intros P J S. apply eqb_false_iff in P, J, S.
    unfold supported_languages, detect_among. rewrite P, J, S.
    destruct (PyStr.eqb ext (lit ".cpp")); [reflexivity|].
    destruct (PyStr.eqb ext (lit ".go")); reflexivity.
Qed.

Lemma detected_language_routing_witness :
  _detect_language sample_suffix (lit "lib/util.cpp") = lit "cpp"
  /\ analyze_code (rt := sample_runtime)
       block_source (_detect_language sample_suffix (lit "lib/util.cpp"))
     = _analyze_generic block_source.
Proof.
  split; [reflexivity|].
  apply (detected_language_routing (rt := sample_runtime) sample_suffix
           (lit "lib/util.cpp") block_source); discriminate.
Defined.

(** X12. With a threshold that is not negative, [_identify_issues] reports a
    complexity issue on the result of an analysis exactly when some listed
    function is more complex than the threshold, hence never for a tag
    other than ['python']; and it reports a length issue exactly when the
    text has more than 200 lines. *)
Theorem issues_follow_analysis {rt : PythonRuntime}
    (config : Config) (code language : str) :
  (0 <= complexity_threshold config)%Z ->
  exists r,
    analyze_code code language = inr r
    /\ (has_issue (lit "complexity") (_identify_issues config r) = true <->
        Exists (fun f => (complexity_threshold config
                          < Z.of_nat (fn_complexity f))%Z)
          (functions r))
    /\ (has_issue (lit "length") (_identify_issues config r) = true <->
        200 < List.length (splitlines code))
    /\ (language <> lit "python" ->
        has_issue (lit "complexity") (_identify_issues config r) = false)
    /\ List.length (_identify_issues config r) <= 2.
Proof.
  intros T. destruct (analyze_code_returns code language) as [r [E B]].
  exists r. split; [exact E|].
  rewrite has_issue_complexity, has_issue_length.
  rewrite (produced_complexity _ _ B), (produced_lines _ _ B).
  split; [|split; [|split]].
  - rewrite Z.ltb_lt, (list_max_exceeds _ _ T), Exists_exists.
    rewrite Exists_exists. split.
    + intros [c [H L]]. apply in_map_iff in H as [f [<- H]]. now exists f.
    + intros [f [H L]]. exists (fn_complexity f). split; [|exact L].
      now apply in_map.
  - apply Nat.ltb_lt.
  - intros N. destruct (other_tags_leave_complexity code language N)
      as [r' [E' Z]].
    rewrite E in E'. injection E' as <-.
    rewrite <- (produced_complexity _ _ B), Z. apply Z.ltb_ge. exact T.
  - unfold _identify_issues.
    destruct (_ <? _)%Z; destruct (200 <? _); simpl; lia.
Qed.

Lemma issues_follow_analysis_witness :
  exists r,
    analyze_code (rt := sample_runtime) loop_source (lit "python") = inr r
    /\ _identify_issues default_config r = []
    /\ has_issue (lit "complexity")
         (_identify_issues (mkConfig 0 2 true [] []) r) = true.
Proof.
  destruct (issues_follow_analysis (rt := sample_runtime)
              (mkConfig 0 2 true [] []) loop_source (lit "python"))
    as [r [E [C _]]]; [simpl; lia|].
  exists r. split; [exact E|].
  assert (R : r = python_tree_analysis loop_source loop_tree).
  { assert (E' : analyze_code (rt := sample_runtime) loop_source
                   (lit "python")
                 = inr (python_tree_analysis loop_source loop_tree))
      by reflexivity.
    rewrite E in E'. now injection E'. }
  split.
  - rewrite R. reflexivity.
  - apply C. rewrite R. constructor. simpl. lia.
Defined.

Section ClassKeyword.

Context {rt : PythonRuntime}.

Lemma one_of_matches (a b c : string) (kw : str) :
  one_of a b c kw -> matches (Alt (Lit a) (Alt (Lit b) (Lit c))) kw.
Proof.
  intros [-> | [-> | ->]].
  - apply m_alt_l, matches_Lit.
  - apply m_alt_r, m_alt_l, matches_Lit.
  - apply m_alt_r, m_alt_r, matches_Lit.
Qed.

Lemma class_keyword_matches (kw ws name : str) :
  one_of "class" "interface" "enum" kw ->
  ws <> [] -> forallb space ws = true ->
  name <> [] -> forallb word name = true ->
  matches java_class_pattern ([] ++ [] ++ kw ++ ws ++ name ++ []).
Proof.
  intros K N1 S1 N2 W2. unfold java_class_pattern.
  repeat (apply matches_cat_cons);
    auto using one_of_matches, matches_Plus, matches_Star, matches_cat_nil.
  apply m_alt_r. constructor.
Qed.

End ClassKeyword.

(** X13. The class pattern of the Java path is not anchored: any text in
    which [class], [interface] or [enum] is followed by white space and a
    word character has [class_count] at least [1], wherever the keyword
    stands, be it in a comment or at the end of a longer identifier. *)
Theorem java_class_keyword_counts {rt : PythonRuntime}
    (code pre kw ws name post : str) :
  code = pre ++ kw ++ ws ++ name ++ post ->
  one_of "class" "interface" "enum" kw ->
  ws <> [] -> forallb space ws = true ->
  name <> [] -> forallb word name = true ->
  exists r,
    analyze_code code (lit "java") = inr r
    /\ 1 <= class_count r.
Proof.
  intros E K N1 S1 N2 W2.
  exists (java_analysis code). split; [reflexivity|].
  unfold java_analysis. simpl. unfold findall_len.
  pose proof (class_keyword_matches kw ws name K N1 S1 N2 W2) as M.
  pose proof (findall_finds java_class_pattern pre _ post M) as F.
  simpl app in F. rewrite app_nil_r in F. rewrite E.
  repeat rewrite <- app_assoc in F. exact F.
Qed.

Lemma java_class_keyword_counts_witness :
  exists r,
    analyze_code (rt := sample_runtime) (lit "// a subclass of Shape")
      (lit "java") = inr r
    /\ 1 <= class_count r.
Proof.
  apply (java_class_keyword_counts (rt := sample_runtime)
           (lit "// a subclass of Shape") (lit "// a sub") (lit "class")
           (lit " ") (lit "of") (lit " Shape"));
    try reflexivity; try discriminate.
  left. reflexivity.
Defined.
